(** * SophT-backend: finite-difference stencil kernels on Eulerian grids

    A shallow embedding of

    - [stencil_ops_2d/outplane_field_curl_2d.py]
    - [stencil_ops_2d/penalise_field_boundary_2d.py]
    - [stencil_ops_3d/update_vorticity_from_velocity_forcing_3d.py]

    Arrays are dense buffers with a shape, indexed by integers; a compiled
    pystencils kernel is the loop nest over its iteration space that stores
    the right-hand side of the stencil assignment cell by cell.  Arithmetic
    is exact: the numeric type [real_t] of the generators is a commutative
    ring ([scalar]), instantiated by [Z] to run the kernels and by [R] for
    the sine taper. *)

From Stdlib Require Import ZArith List Bool Lia FinFun.
From Stdlib Require Import Ring Reals Lra.
From Stdlib Require Import setoid_ring.InitialRing setoid_ring.RealField.
Import ListNotations.

Local Open Scope Z_scope.

(* ================================================================== *)
(** * Part I: definitions *)
(* ================================================================== *)

(** ** Scalars *)

(** The numeric type selected by [real_t], with exact ring arithmetic. *)
Record scalar : Type := Scalar {
  num :> Type;
  s0 : num;
  s1 : num;
  sadd : num -> num -> num;
  smul : num -> num -> num;
  ssub : num -> num -> num;
  sopp : num -> num;
  scalar_ring : ring_theory s0 s1 sadd smul ssub sopp (@eq num)
}.

Arguments s0 {_}.
Arguments s1 {_}.
Arguments sadd {_}.
Arguments smul {_}.
Arguments ssub {_}.
Arguments sopp {_}.

Declare Scope scalar_scope.
Delimit Scope scalar_scope with S.
Notation "a + b" := (sadd a b) : scalar_scope.
Notation "a - b" := (ssub a b) : scalar_scope.
Notation "a * b" := (smul a b) : scalar_scope.

Definition Z_scalar : scalar := Scalar Z 0 1 Z.add Z.mul Z.sub Z.opp Zth.

Definition R_scalar : scalar :=
  Scalar R 0%R 1%R Rplus Rmult Rminus Ropp RTheory.

(** ** Dense arrays *)

Section Arrays.

Context {T : Type}.

(** A 2D buffer: its shape [(n0, n1)] and the cell at every index.  Only
    the cells [0 <= i < n0], [0 <= j < n1] belong to the buffer. *)
Record ndarray2 : Type := NDArray2 {
  shape2 : Z * Z;
  at2 : Z -> Z -> T
}.

Record ndarray3 : Type := NDArray3 {
  shape3 : Z * Z * Z;
  at3 : Z -> Z -> Z -> T
}.

(** [a[i, j] = v] *)
Definition store2 (a : ndarray2) (i j : Z) (v : T) : ndarray2 :=
  {| shape2 := shape2 a;
     at2 := fun i' j' =>
       if (i' =? i) && (j' =? j) then v else at2 a i' j' |}.

(** [a[i, j, k] = v] *)
Definition store3 (a : ndarray3) (i j k : Z) (v : T) : ndarray3 :=
  {| shape3 := shape3 a;
     at3 := fun i' j' k' =>
       if (i' =? i) && (j' =? j) && (k' =? k) then v else at3 a i' j' k' |}.

End Arrays.

Arguments ndarray2 T : clear implicits.
Arguments ndarray3 T : clear implicits.

(** A 2-vector field of shape [(2, n0, n1)]: its two component views. *)
Definition vector_field2 (T : Type) : Type := (ndarray2 T * ndarray2 T)%type.

(** A 3-vector field of shape [(3, n0, n1, n2)]: component views 0, 1, 2. *)
Record vector_field3 (T : Type) : Type := VectorField3 {
  comp0 : ndarray3 T;
  comp1 : ndarray3 T;
  comp2 : ndarray3 T
}.

Arguments VectorField3 {T}.
Arguments comp0 {T}.
Arguments comp1 {T}.
Arguments comp2 {T}.

(** ** Loops *)

(** [range(lo, hi)] *)
Definition range (lo hi : Z) : list Z :=
  map (fun k => lo + Z.of_nat k) (seq 0 (Z.to_nat (hi - lo))).

(** [for x in xs: s = body(x, s)] *)
Definition for_each {X St : Type} (xs : list X) (body : X -> St -> St)
  (s : St) : St :=
  fold_left (fun s x => body x s) xs s.

(** A half-open index interval [lo, hi) of a loop. *)
Definition interval : Type := (Z * Z)%type.

Definition in_interval (r : interval) (i : Z) : bool :=
  (fst r <=? i) && (i <? snd r).

(** ** Iteration spaces of pystencils kernels *)

(** Without an [iteration_slice], a kernel runs over the cells that are
    [gl] ghost layers away from every face, where [gl] is the largest
    offset read by the stencil, the same on every axis. *)
Definition ghost_layer_interval (gl size : Z) : interval := (gl, size - gl).

(** A slice [start:stop] of [ps.make_slice], with [None] for an omitted
    bound. *)
Definition pyslice : Type := (option Z * option Z)%type.

(** pystencils' [normalize_slice]: a negative bound counts from the end,
    an omitted bound is the face; bounds are not clipped to the size. *)
Definition normalize_slice (s : pyslice) (size : Z) : interval :=
  (match fst s with
   | None => 0
   | Some a => if a <? 0 then size + a else a
   end,
   match snd s with
   | None => size
   | Some b => if b <? 0 then size + b else b
   end).

(** numpy's basic slicing ([slice.indices]): as above, but every bound is
    clipped into [0, size]. *)
Definition slice_indices (s : pyslice) (size : Z) : interval :=
  (match fst s with
   | None => 0
   | Some a => if a <? 0 then Z.max (size + a) 0 else Z.min a size
   end,
   match snd s with
   | None => size
   | Some b => if b <? 0 then Z.max (size + b) 0 else Z.min b size
   end).

Definition interval_length (r : interval) : Z := Z.max (snd r - fst r) 0.

(** The cells a kernel with one ghost layer writes. *)
Definition interior3 (n0 n1 n2 i j k : Z) : bool :=
  ((1 <=? i) && (i <? n0 - 1))
  && (((1 <=? j) && (j <? n1 - 1)) && ((1 <=? k) && (k <? n2 - 1))).

Section Kernels.

Context {T : Type}.

(** The compiled loop nest of a 2D kernel with one assignment
    [dst[0, 0] @= rhs]: the right-hand side may read the cell of [dst]
    being written and any cell of the other fields, which [rhs] closes
    over. *)
Definition run_kernel_2d (r0 r1 : interval) (rhs : Z -> Z -> T -> T)
  (dst : ndarray2 T) : ndarray2 T :=
  for_each (range (fst r0) (snd r0)) (fun i =>
    for_each (range (fst r1) (snd r1)) (fun j a =>
      store2 a i j (rhs i j (at2 a i j)))) dst.

Definition run_kernel_3d (r0 r1 r2 : interval)
  (rhs : Z -> Z -> Z -> T -> T) (dst : ndarray3 T) : ndarray3 T :=
  for_each (range (fst r0) (snd r0)) (fun i =>
    for_each (range (fst r1) (snd r1)) (fun j =>
      for_each (range (fst r2) (snd r2)) (fun k a =>
        store3 a i j k (rhs i j k (at3 a i j k))))) dst.

(** [ps.create_kernel(stencil, config).compile()] with the default
    configuration. *)
Definition create_kernel_2d (gl : Z) (rhs : Z -> Z -> T -> T)
  (dst : ndarray2 T) : ndarray2 T :=
  let '(n0, n1) := shape2 dst in
  run_kernel_2d (ghost_layer_interval gl n0) (ghost_layer_interval gl n1)
    rhs dst.

Definition create_kernel_3d (gl : Z) (rhs : Z -> Z -> Z -> T -> T)
  (dst : ndarray3 T) : ndarray3 T :=
  let '(n0, n1, n2) := shape3 dst in
  run_kernel_3d (ghost_layer_interval gl n0) (ghost_layer_interval gl n1)
    (ghost_layer_interval gl n2) rhs dst.

(** The same with [iteration_slice = ps.make_slice[sl0, sl1]]. *)
Definition create_sliced_kernel_2d (sl0 sl1 : pyslice)
  (rhs : Z -> Z -> T -> T) (dst : ndarray2 T) : ndarray2 T :=
  let '(n0, n1) := shape2 dst in
  run_kernel_2d (normalize_slice sl0 n0) (normalize_slice sl1 n1) rhs dst.

End Kernels.

(** ** Elementwise boundary setter (2D) *)

Section ElementwiseOps2D.

Context {T : Type}.

(** Modelled from the spec: [gen_set_fixed_val_at_boundaries_pyst_kernel_2d]
    of [elementwise_ops_2d.py] is imported by the curl kernel and its
    source is absent.  Section 4.1: given a field and a fixed value,
    overwrite every cell within [width] grid points of every edge (all four
    edges in 2D: top, bottom, left, right rows/columns) with that value. *)
Definition set_fixed_val_at_boundaries_pyst_kernel_2d (width : Z)
  (field : ndarray2 T) (fixed_val : T) : ndarray2 T :=
  let set_band sl0 sl1 :=
    create_sliced_kernel_2d sl0 sl1 (fun _ _ _ => fixed_val) in
  let field := set_band (None, Some width) (None, None) field in
  let field := set_band (Some (- width), None) (None, None) field in
  let field := set_band (None, None) (None, Some width) field in
  set_band (None, None) (Some (- width), None) field.

End ElementwiseOps2D.

(** ** Curl of an out-of-plane field (2D) *)

Section OutplaneFieldCurl2D.

Variable real_t : scalar.

(** [curl_x[0, 0] @= (field[1, 0] - field[-1, 0]) * prefactor] *)
Definition _outplane_field_curl_x_stencil_2d (field : ndarray2 real_t)
  (prefactor : real_t) (i j : Z) (_ : real_t) : real_t :=
  ((at2 field (i + 1) j - at2 field (i - 1) j) * prefactor)%S.

Definition _outplane_field_curl_x_pyst_kernel_2d
  (curl_x field : ndarray2 real_t) (prefactor : real_t) : ndarray2 real_t :=
  create_kernel_2d 1 (_outplane_field_curl_x_stencil_2d field prefactor)
    curl_x.

(** [curl_y[0, 0] @= (field[0, -1] - field[0, 1]) * prefactor] *)
Definition _outplane_field_curl_y_stencil_2d (field : ndarray2 real_t)
  (prefactor : real_t) (i j : Z) (_ : real_t) : real_t :=
  ((at2 field i (j - 1) - at2 field i (j + 1)) * prefactor)%S.

Definition _outplane_field_curl_y_pyst_kernel_2d
  (curl_y field : ndarray2 real_t) (prefactor : real_t) : ndarray2 real_t :=
  create_kernel_2d 1 (_outplane_field_curl_y_stencil_2d field prefactor)
    curl_y.

Definition boundary_width : Z := 1.

Definition set_fixed_val_at_boundaries_2d
  : ndarray2 real_t -> real_t -> ndarray2 real_t :=
  set_fixed_val_at_boundaries_pyst_kernel_2d boundary_width.

(** The kernel mutates the two component views [curl[0]] and [curl[1]];
    the result is the buffer [curl] after the call. *)
Definition outplane_field_curl_pyst_kernel_2d (curl : vector_field2 real_t)
  (field : ndarray2 real_t) (prefactor : real_t) : vector_field2 real_t :=
  let curl0 := _outplane_field_curl_x_pyst_kernel_2d (fst curl) field
                 prefactor in
  let curl1 := _outplane_field_curl_y_pyst_kernel_2d (snd curl) field
                 prefactor in
  let curl0 := set_fixed_val_at_boundaries_2d curl0 s0 in
  let curl1 := set_fixed_val_at_boundaries_2d curl1 s0 in
  (curl0, curl1).

End OutplaneFieldCurl2D.

(** ** Vorticity update from a velocity forcing (3D) *)

Section UpdateVorticityFromVelocityForcing3D.

Variable real_t : scalar.

Let field3 := ndarray3 real_t.

(** [vorticity_field_x[0,0,0] @= vorticity_field_x[0,0,0] + prefactor *
    (f_z[0,1,0] - f_z[0,-1,0] - f_y[1,0,0] + f_y[-1,0,0])] *)
Definition _update_vorticity_from_velocity_forcing_x_comp_stencil_3d
  (velocity_forcing_field_y velocity_forcing_field_z : field3)
  (prefactor : real_t) (i j k : Z) (vorticity_field_x : real_t) : real_t :=
  (vorticity_field_x + prefactor *
     (at3 velocity_forcing_field_z i (j + 1) k
      - at3 velocity_forcing_field_z i (j - 1) k
      - at3 velocity_forcing_field_y (i + 1) j k
      + at3 velocity_forcing_field_y (i - 1) j k))%S.

(** [vorticity_field_y[0,0,0] @= vorticity_field_y[0,0,0] + prefactor *
    (f_x[1,0,0] - f_x[-1,0,0] - f_z[0,0,1] + f_z[0,0,-1])] *)
Definition _update_vorticity_from_velocity_forcing_y_comp_stencil_3d
  (velocity_forcing_field_x velocity_forcing_field_z : field3)
  (prefactor : real_t) (i j k : Z) (vorticity_field_y : real_t) : real_t :=
  (vorticity_field_y + prefactor *
     (at3 velocity_forcing_field_x (i + 1) j k
      - at3 velocity_forcing_field_x (i - 1) j k
      - at3 velocity_forcing_field_z i j (k + 1)
      + at3 velocity_forcing_field_z i j (k - 1)))%S.

(** [vorticity_field_z[0,0,0] @= vorticity_field_z[0,0,0] + prefactor *
    (f_y[0,0,1] - f_y[0,0,-1] - f_x[0,1,0] + f_x[0,-1,0])] *)
Definition _update_vorticity_from_velocity_forcing_z_comp_stencil_3d
  (velocity_forcing_field_x velocity_forcing_field_y : field3)
  (prefactor : real_t) (i j k : Z) (vorticity_field_z : real_t) : real_t :=
  (vorticity_field_z + prefactor *
     (at3 velocity_forcing_field_y i j (k + 1)
      - at3 velocity_forcing_field_y i j (k - 1)
      - at3 velocity_forcing_field_x i (j + 1) k
      + at3 velocity_forcing_field_x i (j - 1) k))%S.

Definition _update_vorticity_from_velocity_forcing_x_comp_kernel_3d
  (vorticity_field_x velocity_forcing_field_y velocity_forcing_field_z
     : field3) (prefactor : real_t) : field3 :=
  create_kernel_3d 1
    (_update_vorticity_from_velocity_forcing_x_comp_stencil_3d
       velocity_forcing_field_y velocity_forcing_field_z prefactor)
    vorticity_field_x.

Definition _update_vorticity_from_velocity_forcing_y_comp_kernel_3d
  (vorticity_field_y velocity_forcing_field_x velocity_forcing_field_z
     : field3) (prefactor : real_t) : field3 :=
  create_kernel_3d 1
    (_update_vorticity_from_velocity_forcing_y_comp_stencil_3d
       velocity_forcing_field_x velocity_forcing_field_z prefactor)
    vorticity_field_y.

Definition _update_vorticity_from_velocity_forcing_z_comp_kernel_3d
  (vorticity_field_z velocity_forcing_field_x velocity_forcing_field_y
     : field3) (prefactor : real_t) : field3 :=
  create_kernel_3d 1
    (_update_vorticity_from_velocity_forcing_z_comp_stencil_3d
       velocity_forcing_field_x velocity_forcing_field_y prefactor)
    vorticity_field_z.

(** [vorticity_field += prefactor * curl(velocity_forcing_field)]; the
    result is [vorticity_field] after the call. *)
Definition update_vorticity_from_velocity_forcing_pyst_kernel_3d
  (vorticity_field velocity_forcing_field : vector_field3 real_t)
  (prefactor : real_t) : vector_field3 real_t :=
  let w0 := _update_vorticity_from_velocity_forcing_x_comp_kernel_3d
              (comp0 vorticity_field) (comp1 velocity_forcing_field)
              (comp2 velocity_forcing_field) prefactor in
  let w1 := _update_vorticity_from_velocity_forcing_y_comp_kernel_3d
              (comp1 vorticity_field) (comp0 velocity_forcing_field)
              (comp2 velocity_forcing_field) prefactor in
  let w2 := _update_vorticity_from_velocity_forcing_z_comp_kernel_3d
              (comp2 vorticity_field) (comp0 velocity_forcing_field)
              (comp1 velocity_forcing_field) prefactor in
  VectorField3 w0 w1 w2.

End UpdateVorticityFromVelocityForcing3D.

(** ** Vorticity update from a penalised velocity (3D) *)

Section UpdateVorticityFromPenalisedVelocity3D.

Variable real_t : scalar.

Let field3 := ndarray3 real_t.

Definition _update_vorticity_from_penalised_velocity_x_comp_stencil_3d
  (penalised_velocity_field_y penalised_velocity_field_z
     velocity_field_y velocity_field_z : field3)
  (prefactor : real_t) (i j k : Z) (vorticity_field_x : real_t) : real_t :=
  (vorticity_field_x + prefactor *
     (at3 penalised_velocity_field_z i (j + 1) k
      - at3 velocity_field_z i (j + 1) k
      - at3 penalised_velocity_field_z i (j - 1) k
      + at3 velocity_field_z i (j - 1) k
      - at3 penalised_velocity_field_y (i + 1) j k
      + at3 velocity_field_y (i + 1) j k
      + at3 penalised_velocity_field_y (i - 1) j k
      - at3 velocity_field_y (i - 1) j k))%S.

Definition _update_vorticity_from_penalised_velocity_y_comp_stencil_3d
  (penalised_velocity_field_x penalised_velocity_field_z
     velocity_field_x velocity_field_z : field3)
  (prefactor : real_t) (i j k : Z) (vorticity_field_y : real_t) : real_t :=
  (vorticity_field_y + prefactor *
     (at3 penalised_velocity_field_x (i + 1) j k
      - at3 velocity_field_x (i + 1) j k
      - at3 penalised_velocity_field_x (i - 1) j k
      + at3 velocity_field_x (i - 1) j k
      - at3 penalised_velocity_field_z i j (k + 1)
      + at3 velocity_field_z i j (k + 1)
      + at3 penalised_velocity_field_z i j (k - 1)
      - at3 velocity_field_z i j (k - 1)))%S.

Definition _update_vorticity_from_penalised_velocity_z_comp_stencil_3d
  (penalised_velocity_field_x penalised_velocity_field_y
     velocity_field_x velocity_field_y : field3)
  (prefactor : real_t) (i j k : Z) (vorticity_field_z : real_t) : real_t :=
  (vorticity_field_z + prefactor *
     (at3 penalised_velocity_field_y i j (k + 1)
      - at3 velocity_field_y i j (k + 1)
      - at3 penalised_velocity_field_y i j (k - 1)
      + at3 velocity_field_y i j (k - 1)
      - at3 penalised_velocity_field_x i (j + 1) k
      + at3 velocity_field_x i (j + 1) k
      + at3 penalised_velocity_field_x i (j - 1) k
      - at3 velocity_field_x i (j - 1) k))%S.

Definition _update_vorticity_from_penalised_velocity_x_comp_kernel_3d
  (vorticity_field_x penalised_velocity_field_y penalised_velocity_field_z
     velocity_field_y velocity_field_z : field3) (prefactor : real_t)
  : field3 :=
  create_kernel_3d 1
    (_update_vorticity_from_penalised_velocity_x_comp_stencil_3d
       penalised_velocity_field_y penalised_velocity_field_z
       velocity_field_y velocity_field_z prefactor)
    vorticity_field_x.

Definition _update_vorticity_from_penalised_velocity_y_comp_kernel_3d
  (vorticity_field_y penalised_velocity_field_x penalised_velocity_field_z
     velocity_field_x velocity_field_z : field3) (prefactor : real_t)
  : field3 :=
  create_kernel_3d 1
    (_update_vorticity_from_penalised_velocity_y_comp_stencil_3d
       penalised_velocity_field_x penalised_velocity_field_z
       velocity_field_x velocity_field_z prefactor)
    vorticity_field_y.

Definition _update_vorticity_from_penalised_velocity_z_comp_kernel_3d
  (vorticity_field_z penalised_velocity_field_x penalised_velocity_field_y
     velocity_field_x velocity_field_y : field3) (prefactor : real_t)
  : field3 :=
  create_kernel_3d 1
    (_update_vorticity_from_penalised_velocity_z_comp_stencil_3d
       penalised_velocity_field_x penalised_velocity_field_y
       velocity_field_x velocity_field_y prefactor)
    vorticity_field_z.

(** [vorticity_field += prefactor * curl(penalised_velocity_field -
    velocity_field)]; the result is [vorticity_field] after the call. *)
Definition update_vorticity_from_penalised_velocity_kernel_3d
  (vorticity_field penalised_velocity_field velocity_field
     : vector_field3 real_t) (prefactor : real_t) : vector_field3 real_t :=
  let w0 := _update_vorticity_from_penalised_velocity_x_comp_kernel_3d
              (comp0 vorticity_field)
              (comp1 penalised_velocity_field)
              (comp2 penalised_velocity_field)
              (comp1 velocity_field) (comp2 velocity_field) prefactor in
  let w1 := _update_vorticity_from_penalised_velocity_y_comp_kernel_3d
              (comp1 vorticity_field)
              (comp0 penalised_velocity_field)
              (comp2 penalised_velocity_field)
              (comp0 velocity_field) (comp2 velocity_field) prefactor in
  let w2 := _update_vorticity_from_penalised_velocity_z_comp_kernel_3d
              (comp2 vorticity_field)
              (comp0 penalised_velocity_field)
              (comp1 penalised_velocity_field)
              (comp0 velocity_field) (comp1 velocity_field) prefactor in
  VectorField3 w0 w1 w2.

(** The forcing field [penalised_velocity_field - velocity_field], formed
    cell by cell. *)
Definition ndarray3_sub (a b : field3) : field3 :=
  {| shape3 := shape3 a;
     at3 := fun i j k => (at3 a i j k - at3 b i j k)%S |}.

Definition vector_field3_sub (p v : vector_field3 real_t)
  : vector_field3 real_t :=
  VectorField3 (ndarray3_sub (comp0 p) (comp0 v))
               (ndarray3_sub (comp1 p) (comp1 v))
               (ndarray3_sub (comp2 p) (comp2 v)).

End UpdateVorticityFromPenalisedVelocity3D.

(** ** The increments of section 4.3 as the specification writes them *)

Section SpecForcingIncrement.

Variable real_t : scalar.

(** The specification names a grid point (i, j, k) by its offsets along
    x, y and z; the buffers are indexed [z, y, x], so that point is the
    cell [k, j, i]. *)
Definition at_point (f : ndarray3 real_t) (i j k : Z) : real_t :=
  at3 f k j i.

(** x: fz[i,j+1,k] - fz[i,j-1,k] - fy[i,j,k+1] + fy[i,j,k-1] *)
Definition spec_curl_x (f : vector_field3 real_t) (i j k : Z) : real_t :=
  (at_point (comp2 f) i (j + 1) k - at_point (comp2 f) i (j - 1) k
   - at_point (comp1 f) i j (k + 1) + at_point (comp1 f) i j (k - 1))%S.

(** y: fx[i,j,k+1] - fx[i,j,k-1] - fz[i+1,j,k] + fz[i-1,j,k] *)
Definition spec_curl_y (f : vector_field3 real_t) (i j k : Z) : real_t :=
  (at_point (comp0 f) i j (k + 1) - at_point (comp0 f) i j (k - 1)
   - at_point (comp2 f) (i + 1) j k + at_point (comp2 f) (i - 1) j k)%S.

(** z: fy[i+1,j,k] - fy[i-1,j,k] - fx[i,j+1,k] + fx[i,j-1,k] *)
Definition spec_curl_z (f : vector_field3 real_t) (i j k : Z) : real_t :=
  (at_point (comp1 f) (i + 1) j k - at_point (comp1 f) (i - 1) j k
   - at_point (comp0 f) i (j + 1) k + at_point (comp0 f) i (j - 1) k)%S.

End SpecForcingIncrement.

(** ** Exceptions *)

Inductive exn : Type :=
| IndexError
| AssertionError
| ValueError
| ZeroDivisionError
| TypeError.

(** A computation that returns or raises. *)
Definition result (A : Type) : Type := (exn + A)%type.

Definition ret {A : Type} (a : A) : result A := inr a.

Definition raise {A : Type} (e : exn) : result A := inl e.

Definition bind {A B : Type} (m : result A) (k : A -> result B)
  : result B :=
  match m with
  | inl e => inl e
  | inr a => k a
  end.

Notation "x <- m ;; k" := (bind m (fun x => k))
  (at level 61, m at next level, right associativity).

(** [assert cond] *)
Definition assert (cond : bool) : result unit :=
  if cond then ret tt else raise AssertionError.

(** [a / b] on Python floats: a zero divisor raises. *)
Definition pydiv (a b : R) : result R :=
  if Req_dec_T b 0 then raise ZeroDivisionError else ret (a / b)%R.

(** ** numpy indexing and slice assignment *)

Section Numpy.

Context {T : Type}.

(** An integer index on an axis of length [size]: a negative index counts
    from the end; out of range raises. *)
Definition normalize_index (i size : Z) : result Z :=
  let i' := if i <? 0 then i + size else i in
  if (0 <=? i') && (i' <? size) then ret i' else raise IndexError.

(** [a[i, j]] *)
Definition getitem2 (a : ndarray2 T) (i j : Z) : result T :=
  i' <- normalize_index i (fst (shape2 a)) ;;
  j' <- normalize_index j (snd (shape2 a)) ;;
  ret (at2 a i' j').

(** An axis of length [src] broadcasts to an axis of length [dst]. *)
Definition broadcastable (src dst : Z) : bool :=
  (src =? dst) || (src =? 1).

(** The source index read for destination offset [off] on one axis. *)
Definition broadcast_index (src : interval) (off : Z) : Z :=
  if interval_length src =? 1 then fst src else fst src + off.

(** [a[d0, d1] = a[s0, s1]]: the right-hand side is a view of the buffer
    being assigned; numpy reads an overlapping source in full before it
    writes.  A source that does not broadcast to the destination raises
    and leaves the buffer as it is. *)
Definition setitem_slice2 (d0 d1 s0 s1 : pyslice) (a : ndarray2 T)
  : result (ndarray2 T) :=
  let '(n0, n1) := shape2 a in
  let D0 := slice_indices d0 n0 in
  let D1 := slice_indices d1 n1 in
  let S0 := slice_indices s0 n0 in
  let S1 := slice_indices s1 n1 in
  if broadcastable (interval_length S0) (interval_length D0)
     && broadcastable (interval_length S1) (interval_length D1)
  then ret {| shape2 := shape2 a;
              at2 := fun i j =>
                if in_interval D0 i && in_interval D1 j
                then at2 a (broadcast_index S0 (i - fst D0))
                           (broadcast_index S1 (j - fst D1))
                else at2 a i j |}
  else raise ValueError.

End Numpy.

(** ** Penalisation of the field boundary (2D) *)

(** The values [width] can be called with. *)
Inductive pynumber : Type :=
| PyInt (n : Z)
| PyFloat (x : R).

(** [width > 0] *)
Definition pynumber_is_positive (w : pynumber) : bool :=
  match w with
  | PyInt n => 0 <? n
  | PyFloat x => if Rlt_dec 0 x then true else false
  end.

(** [isinstance(width, int)] *)
Definition pynumber_is_int (w : pynumber) : bool :=
  match w with
  | PyInt _ => true
  | PyFloat _ => false
  end.

(** What the generated kernel closes over. *)
Record penalise_field_boundary_closure : Type := PenaliseClosure {
  width : Z;
  sine_prefactor : R;
  x_grid_field : ndarray2 R;
  y_grid_field : ndarray2 R;
  x_grid_field_start : R;
  y_grid_field_start : R;
  x_grid_field_end : R;
  y_grid_field_end : R;
  fixed_grid_size : option (Z * Z)
}.

(** The generator: reads the reference coordinates, checks [width] and
    fixes the angular frequency of the taper, [(np.pi / 2) / (width * dx)]
    with [dx] a Python float.  [fixed_grid_size] only specialises the
    generated code to one grid size; it is kept in the closure and not
    interpreted. *)
Definition gen_penalise_field_boundary_pyst_kernel_2d (width : pynumber)
  (dx : R) (x_grid_field y_grid_field : ndarray2 R)
  (fixed_grid_size : option (Z * Z))
  : result penalise_field_boundary_closure :=
  x_grid_field_start <- getitem2 x_grid_field 0 0 ;;
  y_grid_field_start <- getitem2 y_grid_field 0 0 ;;
  x_grid_field_end <- getitem2 x_grid_field 0 (-1) ;;
  y_grid_field_end <- getitem2 y_grid_field (-1) 0 ;;
  _ <- assert (pynumber_is_positive width && pynumber_is_int width) ;;
  match width with
  | PyInt w =>
      sine_prefactor <- pydiv (PI / 2) (IZR w * dx) ;;
      ret (PenaliseClosure w sine_prefactor x_grid_field y_grid_field
             x_grid_field_start y_grid_field_start
             x_grid_field_end y_grid_field_end fixed_grid_size)
  | PyFloat _ => raise AssertionError (* not reached: the assertion failed *)
  end.

Section PenaliseFieldBoundary2D.

Variable K : penalise_field_boundary_closure.

(** The factor each stencil multiplies the cell by. *)
Definition x_front_taper (i j : Z) : R :=
  sin (sine_prefactor K * (at2 (x_grid_field K) i j - x_grid_field_start K)).

Definition x_back_taper (i j : Z) : R :=
  sin (sine_prefactor K * (x_grid_field_end K - at2 (x_grid_field K) i j)).

Definition y_front_taper (i j : Z) : R :=
  sin (sine_prefactor K * (at2 (y_grid_field K) i j - y_grid_field_start K)).

Definition y_back_taper (i j : Z) : R :=
  sin (sine_prefactor K * (y_grid_field_end K - at2 (y_grid_field K) i j)).

(** [field[0, 0] @= field[0, 0] * sp.sin(sine_prefactor *
    (x_grid_field[0, 0] - x_grid_field_start))] *)
Definition penalise_field_x_front_boundary_stencil_2d (i j : Z) (field : R)
  : R := (field * x_front_taper i j)%R.

Definition penalise_field_x_back_boundary_stencil_2d (i j : Z) (field : R)
  : R := (field * x_back_taper i j)%R.

Definition penalise_field_y_front_boundary_stencil_2d (i j : Z) (field : R)
  : R := (field * y_front_taper i j)%R.

Definition penalise_field_y_back_boundary_stencil_2d (i j : Z) (field : R)
  : R := (field * y_back_taper i j)%R.

Definition x_front_boundary_slice : pyslice * pyslice :=
  ((None, None), (None, Some (width K))).

Definition x_back_boundary_slice : pyslice * pyslice :=
  ((None, None), (Some (- width K), None)).

Definition y_front_boundary_slice : pyslice * pyslice :=
  ((None, Some (width K)), (None, None)).

Definition y_back_boundary_slice : pyslice * pyslice :=
  ((Some (- width K), None), (None, None)).

Definition penalise_field_x_front_boundary_kernel_2d
  : ndarray2 R -> ndarray2 R :=
  create_sliced_kernel_2d (fst x_front_boundary_slice)
    (snd x_front_boundary_slice) penalise_field_x_front_boundary_stencil_2d.

Definition penalise_field_x_back_boundary_kernel_2d
  : ndarray2 R -> ndarray2 R :=
  create_sliced_kernel_2d (fst x_back_boundary_slice)
    (snd x_back_boundary_slice) penalise_field_x_back_boundary_stencil_2d.

Definition penalise_field_y_front_boundary_kernel_2d
  : ndarray2 R -> ndarray2 R :=
  create_sliced_kernel_2d (fst y_front_boundary_slice)
    (snd y_front_boundary_slice) penalise_field_y_front_boundary_stencil_2d.

Definition penalise_field_y_back_boundary_kernel_2d
  : ndarray2 R -> ndarray2 R :=
  create_sliced_kernel_2d (fst y_back_boundary_slice)
    (snd y_back_boundary_slice) penalise_field_y_back_boundary_stencil_2d.

End PenaliseFieldBoundary2D.

(** A statement of the kernel body: it acts on the buffer [field] and
    may raise, in which case the buffer stays as the statement left it. *)
Definition stmt : Type := ndarray2 R -> option exn * ndarray2 R.

Definition seq_stmt (s1 s2 : stmt) : stmt :=
  fun field =>
    match s1 field with
    | (None, field') => s2 field'
    | (Some e, field') => (Some e, field')
    end.

Notation "s1 ;;; s2" := (seq_stmt s1 s2)
  (at level 62, right associativity).

(** [field[d0, d1] = field[s0, s1]] as a statement. *)
Definition assign_slice (d0 d1 s0 s1 : pyslice) : stmt :=
  fun field =>
    match setitem_slice2 d0 d1 s0 s1 field with
    | inr field' => (None, field')
    | inl e => (Some e, field)
    end.

(** Two shapes are the same. *)
Definition shape_eqb (a b : Z * Z) : bool :=
  (fst a =? fst b) && (snd a =? snd b).

(** A call [kernel(field=field, x_grid_field=grid_field)] of a compiled
    kernel.  Each stencil declares its two fields with one shape; the
    wrapper pystencils generates compares the shapes of the arrays it is
    passed and rejects the call, before the loop nest runs, when they
    differ ("Arrays must have same shape").  When they agree, every
    coordinate cell the loop nest reads is a cell of [grid_field]. *)
Definition call_kernel (kernel : ndarray2 R -> ndarray2 R)
  (grid_field : ndarray2 R) : stmt :=
  fun field =>
    if shape_eqb (shape2 field) (shape2 grid_field)
    then (None, kernel field)
    else (Some TypeError, field).

(** The kernel returned by the generator; the result is the exception
    raised, if any, and the buffer [field] after the call. *)
Definition penalise_field_boundary_pyst_kernel_2d
  (K : penalise_field_boundary_closure) : stmt :=
  let width := width K in
  (* first along X *)
  assign_slice (None, None) (None, Some width)
               (None, None) (Some (width - 1), Some width) ;;;
  assign_slice (None, None) (Some (- width), None)
               (None, None) (Some (- width), Some (- width + 1)) ;;;
  call_kernel (penalise_field_x_front_boundary_kernel_2d K)
              (x_grid_field K) ;;;
  call_kernel (penalise_field_x_back_boundary_kernel_2d K)
              (x_grid_field K) ;;;
  (* then along Y *)
  assign_slice (None, Some width) (None, None)
               (Some (width - 1), Some width) (None, None) ;;;
  assign_slice (Some (- width), None) (None, None)
               (Some (- width), Some (- width + 1)) (None, None) ;;;
  call_kernel (penalise_field_y_front_boundary_kernel_2d K)
              (y_grid_field K) ;;;
  call_kernel (penalise_field_y_back_boundary_kernel_2d K)
              (y_grid_field K).

(** ** Predicates used in the statements *)

(** [g] has the shape of [f] and the same cells outside the four edge
    bands of thickness [w]. *)
Definition same_centre (w : Z) (f g : ndarray2 R) : Prop :=
  shape2 g = shape2 f /\
  forall i j,
    w <= i < fst (shape2 f) - w -> w <= j < snd (shape2 f) - w ->
    at2 g i j = at2 f i j.

Definition keeps_centre (w : Z) (s : stmt) : Prop :=
  forall f, same_centre w f (snd (s f)).

(** A slice that selects, on an axis of any length, only indices of the
    two bands of thickness [w]: as numpy reads it, and as pystencils
    does. *)
Definition numpy_band_slice (w : Z) (d : pyslice) : Prop :=
  forall n i, in_interval (slice_indices d n) i = true ->
              i < w \/ n - w <= i.

Definition pyst_band_slice (w : Z) (d : pyslice) : Prop :=
  forall n i, in_interval (normalize_slice d n) i = true ->
              i < w \/ n - w <= i.

(** A coordinate field of a uniform grid of spacing [dx]: the x
    coordinate grows by [dx] per column, the y coordinate by [dx] per
    row. *)
Definition uniform_x_grid (dx : R) (xg : ndarray2 R) : Prop :=
  forall i j,
    0 <= i < fst (shape2 xg) -> 0 <= j < snd (shape2 xg) ->
    at2 xg i j = (at2 xg 0 0 + IZR j * dx)%R.

Definition uniform_y_grid (dx : R) (yg : ndarray2 R) : Prop :=
  forall i j,
    0 <= i < fst (shape2 yg) -> 0 <= j < snd (shape2 yg) ->
    at2 yg i j = (at2 yg 0 0 + IZR i * dx)%R.

(** The sine taper at [d] cells from the outer edge of a band of [w]
    cells. *)
Definition taper_profile (w d : Z) : R :=
  sin ((PI / 2) * (IZR d / IZR w)).

(** ** The penalised buffer as section 4.5 describes it *)

(** After the two assignments along x alone: every cell of a band holds
    the value the field had at the band's innermost column. *)
Definition flat_along_x (w n1 : Z) (f : Z -> Z -> R) (i j : Z) : R :=
  if j <? w then f i (w - 1)
  else if n1 - w <=? j then f i (n1 - w) else f i j.

(** After the two assignments along y alone. *)
Definition flat_along_y (w n0 : Z) (f : Z -> Z -> R) (i j : Z) : R :=
  if i <? w then f (w - 1) j
  else if n0 - w <=? i then f (n0 - w) j else f i j.

(** After the x stages: every cell of a band holds the value the field had
    at the band's innermost column, times the band's taper. *)
Definition after_x_stages (K : penalise_field_boundary_closure) (n1 : Z)
  (f : Z -> Z -> R) (i j : Z) : R :=
  if j <? width K
  then (f i (width K - 1)%Z * x_front_taper K i j)%R
  else if n1 - width K <=? j
       then (f i (n1 - width K)%Z * x_back_taper K i j)%R
       else f i j.

(** After the y stages, applied to what the x stages left. *)
Definition after_y_stages (K : penalise_field_boundary_closure) (n0 : Z)
  (f : Z -> Z -> R) (i j : Z) : R :=
  if i <? width K
  then (f (width K - 1)%Z j * y_front_taper K i j)%R
  else if n0 - width K <=? i
       then (f (n0 - width K)%Z j * y_back_taper K i j)%R
       else f i j.

(** ** Linear combinations of fields *)

(** [a * f1 + b * f2], cell by cell, on the shape of [f1]. *)
Definition lincomb2 (real_t : scalar) (a : real_t) (f1 : ndarray2 real_t)
  (b : real_t) (f2 : ndarray2 real_t) : ndarray2 real_t :=
  {| shape2 := shape2 f1;
     at2 := fun i j => (a * at2 f1 i j + b * at2 f2 i j)%S |}.

(** ** Field algebra and central differences used in the statements *)

Section FieldAlgebra.

Variable real_t : scalar.

(** [a + b], cell by cell, on the shape of [a]. *)
Definition ndarray3_add (a b : ndarray3 real_t) : ndarray3 real_t :=
  {| shape3 := shape3 a;
     at3 := fun i j k => (at3 a i j k + at3 b i j k)%S |}.

Definition vector_field3_add (f g : vector_field3 real_t)
  : vector_field3 real_t :=
  VectorField3 (ndarray3_add (comp0 f) (comp0 g))
               (ndarray3_add (comp1 f) (comp1 g))
               (ndarray3_add (comp2 f) (comp2 g)).

(** [field + c] *)
Definition add_const2 (f : ndarray2 real_t) (c : real_t) : ndarray2 real_t :=
  {| shape2 := shape2 f; at2 := fun i j => (at2 f i j + c)%S |}.


(** The same for a 3-vector field on buffers indexed [z, y, x]. *)
Definition divergence3 (v : vector_field3 real_t) (i j k : Z) : real_t :=
  (at3 (comp0 v) i j (k + 1) - at3 (comp0 v) i j (k - 1)
   + (at3 (comp1 v) i (j + 1) k - at3 (comp1 v) i (j - 1) k)
   + (at3 (comp2 v) (i + 1) j k - at3 (comp2 v) (i - 1) j k))%S.

End FieldAlgebra.

(** ** Concrete grids and fields *)

(** [np.full(shape, v)] *)
Definition full2 {T : Type} (shape : Z * Z) (v : T) : ndarray2 T :=
  {| shape2 := shape; at2 := fun _ _ => v |}.

Definition full3 {T : Type} (shape : Z * Z * Z) (v : T) : ndarray3 T :=
  {| shape3 := shape; at3 := fun _ _ _ => v |}.

(** The rows of a buffer, for reading off a whole result. *)
Definition tolist2 {T : Type} (a : ndarray2 T) : list (list T) :=
  map (fun i => map (fun j => at2 a i j) (range 0 (snd (shape2 a))))
      (range 0 (fst (shape2 a))).

Definition tolist3 {T : Type} (a : ndarray3 T) : list (list (list T)) :=
  let '(n0, n1, n2) := shape3 a in
  map (fun i => map (fun j => map (fun k => at3 a i j k) (range 0 n2))
                    (range 0 n1))
      (range 0 n0).

(** A 4 x 5 integer field. *)
Definition example_field_2d : ndarray2 Z_scalar :=
  {| shape2 := (4, 5); at2 := fun i j => i * i + 3 * j * j + i * j |}.

(** Two 4 x 5 curl buffers with unrelated stale contents. *)
Definition stale_curl_a : vector_field2 Z_scalar :=
  (full2 (4, 5) 7, full2 (4, 5) (-3)).

Definition stale_curl_b : vector_field2 Z_scalar :=
  ({| shape2 := (4, 5); at2 := fun i j => 100 + i - j |},
   {| shape2 := (4, 5); at2 := fun i j => i * j |}).

(** 4 x 4 x 4 integer vector fields. *)
Definition example_vorticity_3d : vector_field3 Z_scalar :=
  VectorField3 {| shape3 := (4, 4, 4); at3 := fun i j k => i + j + k |}
               {| shape3 := (4, 4, 4); at3 := fun i j k => i * j - k |}
               {| shape3 := (4, 4, 4); at3 := fun i j k => 5 |}.

Definition example_penalised_velocity_3d : vector_field3 Z_scalar :=
  VectorField3 {| shape3 := (4, 4, 4); at3 := fun i j k => i * i + j * k |}
               {| shape3 := (4, 4, 4); at3 := fun i j k => j * j * k + i |}
               {| shape3 := (4, 4, 4); at3 := fun i j k => k * k * i - j |}.

Definition example_velocity_3d : vector_field3 Z_scalar :=
  VectorField3 {| shape3 := (4, 4, 4); at3 := fun i j k => 2 * i - j * j |}
               {| shape3 := (4, 4, 4); at3 := fun i j k => i * k |}
               {| shape3 := (4, 4, 4); at3 := fun i j k => 3 * j + k * k |}.

Definition example_forcing_3d : vector_field3 Z_scalar :=
  vector_field3_sub Z_scalar example_penalised_velocity_3d
    example_velocity_3d.

(** The coordinate fields of an 8 x 8 grid of spacing 1 whose first cell
    is the origin. *)
Definition example_x_grid : ndarray2 R :=
  {| shape2 := (8, 8); at2 := fun _ j => IZR j |}.

Definition example_y_grid : ndarray2 R :=
  {| shape2 := (8, 8); at2 := fun i _ => IZR i |}.

(** A coordinate field of another shape. *)
Definition small_x_grid : ndarray2 R :=
  {| shape2 := (4, 4); at2 := fun _ j => IZR j |}.

(** What the generator returns for width 2 and spacing 1 on the 8 x 8
    grid. *)
Definition example_closure : penalise_field_boundary_closure :=
  PenaliseClosure 2 ((PI / 2) / (IZR 2 * 1))%R example_x_grid example_y_grid
    (IZR 0) (IZR 0) (IZR 7) (IZR 7) None.

(** What the generator returns for width 1 on the same grid. *)
Definition example_closure_width_1 : penalise_field_boundary_closure :=
  PenaliseClosure 1 ((PI / 2) / (IZR 1 * 1))%R example_x_grid example_y_grid
    (IZR 0) (IZR 0) (IZR 7) (IZR 7) None.

(** Another 4 x 5 integer field. *)
Definition example_field_2d_b : ndarray2 Z_scalar :=
  {| shape2 := (4, 5); at2 := fun i j => 2 * i - j * j * j |}.

(** An 8 x 8 real field. *)
Definition example_field_R : ndarray2 R :=
  {| shape2 := (8, 8); at2 := fun i j => IZR (i * 8 + j + 1) |}.

(** A second 8 x 8 real field. *)
Definition example_field_R_b : ndarray2 R :=
  {| shape2 := (8, 8); at2 := fun i j => IZR (i * i - 3 * j) |}.


(** Buffers thinner than the band of [example_closure]: one column, and
    one row. *)
Definition example_field_one_column : ndarray2 R :=
  {| shape2 := (3, 1); at2 := fun i j => IZR (i + j + 1) |}.





(** What the generator returns for width 2 when it is given the 4 x 4
    x-coordinate field with the 8 x 8 y-coordinate field. *)
Definition example_closure_mismatched : penalise_field_boundary_closure :=
  PenaliseClosure 2 ((PI / 2) / (IZR 2 * 1))%R small_x_grid example_y_grid
    (IZR 0) (IZR 0) (IZR 3) (IZR 7) None.



(** 5 x 5 x 5 integer vector fields. *)
Definition example_vorticity_3d_wide : vector_field3 Z_scalar :=
  VectorField3 {| shape3 := (5, 5, 5); at3 := fun i j k => i * k + j |}
               {| shape3 := (5, 5, 5); at3 := fun i j k => j * j - i * k |}
               {| shape3 := (5, 5, 5); at3 := fun i j k => 7 - k |}.

Definition example_penalised_velocity_3d_wide : vector_field3 Z_scalar :=
  VectorField3 {| shape3 := (5, 5, 5); at3 := fun i j k => i * i + j * k |}
               {| shape3 := (5, 5, 5); at3 := fun i j k => j * j * k + i |}
               {| shape3 := (5, 5, 5); at3 := fun i j k => k * k * i - j |}.

Definition example_velocity_3d_wide : vector_field3 Z_scalar :=
  VectorField3 {| shape3 := (5, 5, 5); at3 := fun i j k => 2 * i - j * j |}
               {| shape3 := (5, 5, 5); at3 := fun i j k => i * k |}
               {| shape3 := (5, 5, 5); at3 := fun i j k => 3 * j + k * k |}.

(* ================================================================== *)
(** * Part II: properties *)
(* ================================================================== *)

(** Integer comparisons of the goal: those the context decides are
    replaced by their value, the others are split. *)
Ltac zdecide :=
  repeat match goal with
  | |- context [?a <? ?b] =>
      first [ replace (a <? b) with true by (symmetry; apply Z.ltb_lt; lia)
            | replace (a <? b) with false by (symmetry; apply Z.ltb_ge; lia) ]
  | |- context [?a <=? ?b] =>
      first [ replace (a <=? b) with true by (symmetry; apply Z.leb_le; lia)
            | replace (a <=? b) with false by (symmetry; apply Z.leb_gt; lia) ]
  | |- context [?a =? ?b] =>
      first [ replace (a =? b) with true by (symmetry; apply Z.eqb_eq; lia)
            | replace (a =? b) with false by (symmetry; apply Z.eqb_neq; lia) ]
  end.

Ltac zsplit :=
  match goal with
  | |- context [?a <? ?b] => destruct (Z.ltb_spec a b)
  | |- context [?a <=? ?b] => destruct (Z.leb_spec a b)
  | |- context [?a =? ?b] => destruct (Z.eqb_spec a b)
  end.

Ltac zcases :=
  zdecide; cbn [andb orb negb fst snd];
  first [ reflexivity | lia | zsplit; zcases | idtac ].

(** ** Ranges and loops *)

Lemma in_range (lo hi x : Z) : In x (range lo hi) <-> lo <= x < hi.
Proof.
  unfold range. rewrite in_map_iff. split.
  - intros [k [<- Hk]]. apply in_seq in Hk. lia.
  - intros Hx. exists (Z.to_nat (x - lo)). split; [lia|].
    apply in_seq. lia.
Qed.

Lemma NoDup_range (lo hi : Z) : NoDup (range lo hi).
Proof.
  unfold range. apply Injective_map_NoDup.
  - intros a b Hab. lia.
  - apply seq_NoDup.
Qed.

Lemma existsb_range (lo hi y : Z) :
  existsb (fun x => y =? x) (range lo hi) = in_interval (lo, hi) y.
Proof.
  unfold in_interval. simpl.
  destruct (existsb _ _) eqn:E.
  - apply existsb_exists in E. destruct E as [x [Hx Hyx]].
    apply in_range in Hx. apply Z.eqb_eq in Hyx. subst. symmetry.
    apply andb_true_iff. split; [apply Z.leb_le | apply Z.ltb_lt]; lia.
  - symmetry. apply not_true_is_false. intros H.
    apply andb_true_iff in H. destruct H as [H1 H2].
    apply Z.leb_le in H1. apply Z.ltb_lt in H2.
    assert (Hin : In y (range lo hi)) by (apply in_range; lia).
    rewrite <- not_true_iff_false in E. apply E.
    apply existsb_exists. exists y. split; [exact Hin | apply Z.eqb_refl].
Qed.

Lemma existsb_andb_const {X : Type} (b : bool) (f : X -> bool) (xs : list X) :
  existsb (fun x => b && f x) xs = b && existsb f xs.
Proof.
  induction xs as [|x xs IH]; simpl.
  - now rewrite andb_false_r.
  - rewrite IH. destruct b; reflexivity.
Qed.

Lemma existsb_andb_const_r {X : Type} (b : bool) (f : X -> bool)
  (xs : list X) :
  existsb (fun x => f x && b) xs = existsb f xs && b.
Proof.
  induction xs as [|x xs IH]; simpl; [reflexivity|].
  rewrite IH. destruct (f x), b; simpl; try reflexivity.
  now rewrite andb_false_r.
Qed.

Section ForEach.

Context {X St Pt V : Type}.
Variable get : St -> Pt -> V.
Variable hit : X -> Pt -> bool.
Variable F : Pt -> V -> V.
Variable step : X -> St -> St.

Hypothesis step_get : forall x s p,
  get (step x s) p = if hit x p then F p (get s p) else get s p.
Hypothesis hit_inj : forall x y p,
  hit x p = true -> hit y p = true -> x = y.

(** A loop whose iterations update disjoint sets of points applies the
    update once to every point some iteration hits and leaves the others
    alone. *)
Lemma for_each_get (xs : list X) :
  NoDup xs ->
  forall s p,
    get (for_each xs step s) p =
    if existsb (fun x => hit x p) xs then F p (get s p) else get s p.
Proof.
  unfold for_each.
  induction xs as [|x xs IH]; intros Hnd s p; simpl; [reflexivity|].
  inversion Hnd as [|? ? Hnotin Hnd']; subst.
  rewrite (IH Hnd'), step_get.
  destruct (hit x p) eqn:Hx; simpl; [|reflexivity].
  destruct (existsb (fun x0 => hit x0 p) xs) eqn:E; [|reflexivity].
  apply existsb_exists in E. destruct E as [y [Hy Hyp]].
  rewrite (hit_inj x y p Hx Hyp) in Hnotin. contradiction.
Qed.

End ForEach.

Section KernelLemmas.

Context {T : Type}.

Lemma for_each_shape2 {X : Type} (xs : list X)
  (body : X -> ndarray2 T -> ndarray2 T) :
  (forall x a, shape2 (body x a) = shape2 a) ->
  forall a, shape2 (for_each xs body a) = shape2 a.
Proof.
  intros Hb. unfold for_each.
  induction xs as [|x xs IH]; intros a; simpl; [reflexivity|].
  now rewrite IH, Hb.
Qed.

Lemma for_each_shape3 {X : Type} (xs : list X)
  (body : X -> ndarray3 T -> ndarray3 T) :
  (forall x a, shape3 (body x a) = shape3 a) ->
  forall a, shape3 (for_each xs body a) = shape3 a.
Proof.
  intros Hb. unfold for_each.
  induction xs as [|x xs IH]; intros a; simpl; [reflexivity|].
  now rewrite IH, Hb.
Qed.

Lemma run_kernel_2d_shape r0 r1 rhs (dst : ndarray2 T) :
  shape2 (run_kernel_2d r0 r1 rhs dst) = shape2 dst.
Proof.
  unfold run_kernel_2d.
  apply for_each_shape2. intros i a.
  apply for_each_shape2. intros j b. reflexivity.
Qed.

Lemma run_kernel_3d_shape r0 r1 r2 rhs (dst : ndarray3 T) :
  shape3 (run_kernel_3d r0 r1 r2 rhs dst) = shape3 dst.
Proof.
  unfold run_kernel_3d.
  apply for_each_shape3. intros i a.
  apply for_each_shape3. intros j b.
  apply for_each_shape3. intros k c. reflexivity.
Qed.

(** The cell-wise meaning of a 2D loop nest. *)
Lemma run_kernel_2d_at r0 r1 rhs (dst : ndarray2 T) (i j : Z) :
  at2 (run_kernel_2d r0 r1 rhs dst) i j =
  if in_interval r0 i && in_interval r1 j
  then rhs i j (at2 dst i j)
  else at2 dst i j.
Proof.
  unfold run_kernel_2d.
  pose (get := fun (a : ndarray2 T) (p : Z * Z) => at2 a (fst p) (snd p)).
  pose (F := fun (p : Z * Z) (v : T) => rhs (fst p) (snd p) v).
  set (l1 := range (fst r1) (snd r1)).
  assert (Hin : forall i0 a p,
    get (for_each l1 (fun j0 a0 =>
           store2 a0 i0 j0 (rhs i0 j0 (at2 a0 i0 j0))) a) p =
    if (fst p =? i0) && in_interval r1 (snd p)
    then F p (get a p) else get a p).
  { intros i0 a p.
    rewrite (for_each_get get
               (fun j0 p => (fst p =? i0) && (snd p =? j0)) F).
    - rewrite existsb_andb_const. unfold l1. rewrite existsb_range.
      now destruct r1.
    - intros j0 s [pi pj]. unfold get, F. simpl.
      destruct ((pi =? i0) && (pj =? j0)) eqn:E; [|reflexivity].
      apply andb_true_iff in E. destruct E as [E1 E2].
      apply Z.eqb_eq in E1, E2. now subst.
    - intros x y q Hx Hy.
      apply andb_true_iff in Hx, Hy. destruct Hx as [_ Hx], Hy as [_ Hy].
      apply Z.eqb_eq in Hx, Hy. congruence.
    - apply NoDup_range. }
  change (at2 ?a i j) with (get a (i, j)).
  rewrite (for_each_get get
             (fun i0 p => (fst p =? i0) && in_interval r1 (snd p)) F).
  - rewrite existsb_andb_const_r, existsb_range. simpl.
    now destruct r0.
  - intros. apply Hin.
  - intros x y p Hx Hy.
    apply andb_true_iff in Hx, Hy. destruct Hx as [Hx _], Hy as [Hy _].
    apply Z.eqb_eq in Hx, Hy. congruence.
  - apply NoDup_range.
Qed.

(** The cell-wise meaning of a 3D loop nest. *)
Lemma run_kernel_3d_at r0 r1 r2 rhs (dst : ndarray3 T) (i j k : Z) :
  at3 (run_kernel_3d r0 r1 r2 rhs dst) i j k =
  if in_interval r0 i && (in_interval r1 j && in_interval r2 k)
  then rhs i j k (at3 dst i j k)
  else at3 dst i j k.
Proof.
  unfold run_kernel_3d.
  pose (get := fun (a : ndarray3 T) (p : Z * Z * Z) =>
                 at3 a (fst (fst p)) (snd (fst p)) (snd p)).
  pose (F := fun (p : Z * Z * Z) (v : T) =>
               rhs (fst (fst p)) (snd (fst p)) (snd p) v).
  set (l1 := range (fst r1) (snd r1)).
  set (l2 := range (fst r2) (snd r2)).
  assert (Hk : forall i0 j0 a p,
    get (for_each l2 (fun k0 a0 =>
           store3 a0 i0 j0 k0 (rhs i0 j0 k0 (at3 a0 i0 j0 k0))) a) p =
    if ((fst (fst p) =? i0) && (snd (fst p) =? j0))
       && in_interval r2 (snd p)
    then F p (get a p) else get a p).
  { intros i0 j0 a p.
    rewrite (for_each_get get
               (fun k0 q => ((fst (fst q) =? i0) && (snd (fst q) =? j0))
                            && (snd q =? k0)) F).
    - rewrite existsb_andb_const. unfold l2. rewrite existsb_range.
      now destruct r2.
    - intros k0 s [[pi pj] pk]. unfold get, F. simpl.
      destruct ((pi =? i0) && (pj =? j0) && (pk =? k0)) eqn:E;
        [|reflexivity].
      apply andb_true_iff in E. destruct E as [E E3].
      apply andb_true_iff in E. destruct E as [E1 E2].
      apply Z.eqb_eq in E1, E2, E3. now subst.
    - intros x y q Hx Hy.
      apply andb_true_iff in Hx, Hy. destruct Hx as [_ Hx], Hy as [_ Hy].
      apply Z.eqb_eq in Hx, Hy. congruence.
    - apply NoDup_range. }
  assert (Hj : forall i0 a p,
    get (for_each l1 (fun j0 =>
           for_each l2 (fun k0 a0 =>
             store3 a0 i0 j0 k0 (rhs i0 j0 k0 (at3 a0 i0 j0 k0)))) a) p =
    if (fst (fst p) =? i0)
       && (in_interval r1 (snd (fst p)) && in_interval r2 (snd p))
    then F p (get a p) else get a p).
  { intros i0 a p.
    rewrite (for_each_get get
               (fun j0 q => ((fst (fst q) =? i0) && (snd (fst q) =? j0))
                            && in_interval r2 (snd q)) F).
    - rewrite existsb_andb_const_r, existsb_andb_const.
      unfold l1. rewrite existsb_range, andb_assoc.
      now destruct r1.
    - intros. apply Hk.
    - intros x y q Hx Hy.
      apply andb_true_iff in Hx, Hy. destruct Hx as [Hx _], Hy as [Hy _].
      apply andb_true_iff in Hx, Hy. destruct Hx as [_ Hx], Hy as [_ Hy].
      apply Z.eqb_eq in Hx, Hy. congruence.
    - apply NoDup_range. }
  change (at3 ?a i j k) with (get a (i, j, k)).
  rewrite (for_each_get get
             (fun i0 q => (fst (fst q) =? i0)
                          && (in_interval r1 (snd (fst q))
                              && in_interval r2 (snd q))) F).
  - rewrite existsb_andb_const_r, existsb_range. simpl.
    now destruct r0.
  - intros. apply Hj.
  - intros x y q Hx Hy.
    apply andb_true_iff in Hx, Hy. destruct Hx as [Hx _], Hy as [Hy _].
    apply Z.eqb_eq in Hx, Hy. congruence.
  - apply NoDup_range.
Qed.

End KernelLemmas.

Section CompiledKernels.

Context {T : Type}.

Lemma create_kernel_2d_shape gl rhs (dst : ndarray2 T) :
  shape2 (create_kernel_2d gl rhs dst) = shape2 dst.
Proof.
  unfold create_kernel_2d. destruct (shape2 dst) as [n0 n1] eqn:E.
  now rewrite run_kernel_2d_shape.
Qed.

Lemma create_kernel_2d_at gl rhs (dst : ndarray2 T) (n0 n1 i j : Z) :
  shape2 dst = (n0, n1) ->
  at2 (create_kernel_2d gl rhs dst) i j =
  if ((gl <=? i) && (i <? n0 - gl)) && ((gl <=? j) && (j <? n1 - gl))
  then rhs i j (at2 dst i j)
  else at2 dst i j.
Proof.
  intros E. unfold create_kernel_2d. rewrite E.
  now rewrite run_kernel_2d_at.
Qed.

Lemma create_sliced_kernel_2d_shape sl0 sl1 rhs (dst : ndarray2 T) :
  shape2 (create_sliced_kernel_2d sl0 sl1 rhs dst) = shape2 dst.
Proof.
  unfold create_sliced_kernel_2d. destruct (shape2 dst) as [n0 n1] eqn:E.
  now rewrite run_kernel_2d_shape.
Qed.

Lemma create_sliced_kernel_2d_at sl0 sl1 rhs (dst : ndarray2 T)
  (n0 n1 i j : Z) :
  shape2 dst = (n0, n1) ->
  at2 (create_sliced_kernel_2d sl0 sl1 rhs dst) i j =
  if in_interval (normalize_slice sl0 n0) i
     && in_interval (normalize_slice sl1 n1) j
  then rhs i j (at2 dst i j)
  else at2 dst i j.
Proof.
  intros E. unfold create_sliced_kernel_2d. rewrite E.
  now rewrite run_kernel_2d_at.
Qed.

Lemma create_kernel_3d_shape gl rhs (dst : ndarray3 T) :
  shape3 (create_kernel_3d gl rhs dst) = shape3 dst.
Proof.
  unfold create_kernel_3d. destruct (shape3 dst) as [[n0 n1] n2] eqn:E.
  now rewrite run_kernel_3d_shape.
Qed.

Lemma create_kernel_3d_at rhs (dst : ndarray3 T) (n0 n1 n2 i j k : Z) :
  shape3 dst = (n0, n1, n2) ->
  at3 (create_kernel_3d 1 rhs dst) i j k =
  if interior3 n0 n1 n2 i j k
  then rhs i j k (at3 dst i j k)
  else at3 dst i j k.
Proof.
  intros E. unfold create_kernel_3d. rewrite E.
  now rewrite run_kernel_3d_at.
Qed.

(** The boundary setter writes the four bands and nothing else. *)
Lemma set_fixed_val_at_boundaries_shape width (field : ndarray2 T) v :
  shape2 (set_fixed_val_at_boundaries_pyst_kernel_2d width field v) =
  shape2 field.
Proof.
  unfold set_fixed_val_at_boundaries_pyst_kernel_2d.
  now rewrite !create_sliced_kernel_2d_shape.
Qed.

Lemma set_fixed_val_at_boundaries_at width (field : ndarray2 T) v
  (n0 n1 i j : Z) :
  shape2 field = (n0, n1) ->
  0 < width -> 0 <= i < n0 -> 0 <= j < n1 ->
  at2 (set_fixed_val_at_boundaries_pyst_kernel_2d width field v) i j =
  if (i <? width) || (n0 - width <=? i) || (j <? width)
     || (n1 - width <=? j)
  then v else at2 field i j.
Proof.
  intros E Hw Hi Hj.
  unfold set_fixed_val_at_boundaries_pyst_kernel_2d.
  rewrite !(create_sliced_kernel_2d_at _ _ _ _ n0 n1)
    by (now rewrite ?create_sliced_kernel_2d_shape).
  unfold in_interval, normalize_slice. simpl.
  zcases.
Qed.

End CompiledKernels.

(** ** The 2D curl operator *)

Section Curl2DProperties.

Variable real_t : scalar.

Add Ring real_t_ring : (scalar_ring real_t).

Lemma curl_shape (curl : vector_field2 real_t) field prefactor :
  shape2 (fst (outplane_field_curl_pyst_kernel_2d real_t curl field prefactor)) = shape2 (fst curl) /\
  shape2 (snd (outplane_field_curl_pyst_kernel_2d real_t curl field prefactor)) = shape2 (snd curl).
Proof.
  unfold outplane_field_curl_pyst_kernel_2d,
    set_fixed_val_at_boundaries_2d,
    _outplane_field_curl_x_pyst_kernel_2d,
    _outplane_field_curl_y_pyst_kernel_2d. simpl.
  now rewrite !set_fixed_val_at_boundaries_shape, !create_kernel_2d_shape.
Qed.

(** Every cell of the output, in terms of [field] alone. *)
Lemma curl_at (curl : vector_field2 real_t) field prefactor
  (N M i j : Z) :
  shape2 (fst curl) = (N, M) -> shape2 (snd curl) = (N, M) ->
  0 <= i < N -> 0 <= j < M ->
  let out := outplane_field_curl_pyst_kernel_2d real_t curl field
               prefactor in
  let ring_cell := (i <? 1) || (N - 1 <=? i) || (j <? 1) || (M - 1 <=? j) in
  at2 (fst out) i j =
    (if ring_cell then s0
     else (at2 field (i + 1) j - at2 field (i - 1) j) * prefactor)%S /\
  at2 (snd out) i j =
    (if ring_cell then s0
     else (at2 field i (j - 1) - at2 field i (j + 1)) * prefactor)%S.
Proof.
  intros E0 E1 Hi Hj. cbv zeta.
  unfold outplane_field_curl_pyst_kernel_2d,
    set_fixed_val_at_boundaries_2d, boundary_width. simpl.
  rewrite !(set_fixed_val_at_boundaries_at 1 _ _ N M) by
    (try lia;
     unfold _outplane_field_curl_x_pyst_kernel_2d,
       _outplane_field_curl_y_pyst_kernel_2d;
     now rewrite create_kernel_2d_shape).
  unfold _outplane_field_curl_x_pyst_kernel_2d,
    _outplane_field_curl_y_pyst_kernel_2d.
  rewrite (create_kernel_2d_at 1 _ (fst curl) N M) by exact E0.
  rewrite (create_kernel_2d_at 1 _ (snd curl) N M) by exact E1.
  unfold _outplane_field_curl_x_stencil_2d,
    _outplane_field_curl_y_stencil_2d.
  destruct ((i <? 1) || (N - 1 <=? i) || (j <? 1) || (M - 1 <=? j)) eqn:B;
    [split; reflexivity|].
  apply orb_false_iff in B. destruct B as [B B4].
  apply orb_false_iff in B. destruct B as [B B3].
  apply orb_false_iff in B. destruct B as [B1 B2].
  apply Z.ltb_ge in B1, B3. apply Z.leb_gt in B2, B4.
  assert (H1 : (1 <=? i) = true) by (apply Z.leb_le; lia).
  assert (H2 : (i <? N - 1) = true) by (apply Z.ltb_lt; lia).
  assert (H3 : (1 <=? j) = true) by (apply Z.leb_le; lia).
  assert (H4 : (j <? M - 1) = true) by (apply Z.ltb_lt; lia).
  rewrite H1, H2, H3, H4. simpl. split; reflexivity.
Qed.

(** C2.  On a grid of shape (N, M) with N, M >= 3, at every interior point
    1 <= i <= N-2, 1 <= j <= M-2 the curl operator leaves
    curl[0][i,j] = prefactor * (field[i+1,j] - field[i-1,j]) and
    curl[1][i,j] = prefactor * (field[i,j-1] - field[i,j+1]). *)
Theorem curl_interior_formula (curl : vector_field2 real_t)
  (field : ndarray2 real_t) (prefactor : real_t) (N M i j : Z) :
  shape2 field = (N, M) ->
  shape2 (fst curl) = (N, M) -> shape2 (snd curl) = (N, M) ->
  3 <= N -> 3 <= M ->
  1 <= i <= N - 2 -> 1 <= j <= M - 2 ->
  let out := outplane_field_curl_pyst_kernel_2d real_t curl field
               prefactor in
  at2 (fst out) i j =
    (prefactor * (at2 field (i + 1) j - at2 field (i - 1) j))%S /\
  at2 (snd out) i j =
    (prefactor * (at2 field i (j - 1) - at2 field i (j + 1)))%S.
Proof.
  intros _ E0 E1 _ _ Hi Hj out. subst out.
  destruct (curl_at curl field prefactor N M i j E0 E1) as [H0 H1];
    try lia.
  cbv zeta in H0, H1.
  assert (B : (i <? 1) || (N - 1 <=? i) || (j <? 1) || (M - 1 <=? j)
              = false).
  { repeat (apply orb_false_iff; split);
      try (apply Z.ltb_ge; lia); apply Z.leb_gt; lia. }
  rewrite B in H0, H1. rewrite H0, H1. split; ring.
Qed.

(** C4.  On a grid with both extents >= 3, both curl components are
    exactly 0 at every point of the outermost ring (the cells within one
    cell of an edge). *)
Theorem curl_zero_on_boundary_ring (curl : vector_field2 real_t)
  (field : ndarray2 real_t) (prefactor : real_t) (N M i j : Z) :
  shape2 field = (N, M) ->
  shape2 (fst curl) = (N, M) -> shape2 (snd curl) = (N, M) ->
  3 <= N -> 3 <= M ->
  0 <= i < N -> 0 <= j < M ->
  i = 0 \/ i = N - 1 \/ j = 0 \/ j = M - 1 ->
  let out := outplane_field_curl_pyst_kernel_2d real_t curl field
               prefactor in
  at2 (fst out) i j = s0 /\ at2 (snd out) i j = s0.
Proof.
  intros _ E0 E1 _ _ Hi Hj Hring out. subst out.
  destruct (curl_at curl field prefactor N M i j E0 E1 Hi Hj) as [H0 H1].
  cbv zeta in H0, H1.
  assert (B : (i <? 1) || (N - 1 <=? i) || (j <? 1) || (M - 1 <=? j)
              = true).
  { apply orb_true_iff.
    destruct (Z.ltb_spec i 1), (Z.leb_spec (N - 1) i),
      (Z.ltb_spec j 1), (Z.leb_spec (M - 1) j); simpl; auto; lia. }
  rewrite B in H0, H1. now split.
Qed.

(** C10.  The output does not depend on what the curl buffer held before
    the call: two runs on the same field and prefactor from any two
    buffers of the grid's shape end with the same buffer, cell by cell. *)
Theorem curl_independent_of_prior_buffer
  (curl_a curl_b : vector_field2 real_t)
  (field : ndarray2 real_t) (prefactor : real_t) (N M : Z) :
  shape2 field = (N, M) ->
  shape2 (fst curl_a) = (N, M) -> shape2 (snd curl_a) = (N, M) ->
  shape2 (fst curl_b) = (N, M) -> shape2 (snd curl_b) = (N, M) ->
  3 <= N -> 3 <= M ->
  let out_a := outplane_field_curl_pyst_kernel_2d real_t curl_a field
                 prefactor in
  let out_b := outplane_field_curl_pyst_kernel_2d real_t curl_b field
                 prefactor in
  shape2 (fst out_a) = shape2 (fst out_b) /\
  shape2 (snd out_a) = shape2 (snd out_b) /\
  forall i j, 0 <= i < N -> 0 <= j < M ->
    at2 (fst out_a) i j = at2 (fst out_b) i j /\
    at2 (snd out_a) i j = at2 (snd out_b) i j.
Proof.
  intros _ Ea0 Ea1 Eb0 Eb1 _ _ out_a out_b. subst out_a out_b.
  destruct (curl_shape curl_a field prefactor) as [Sa0 Sa1].
  destruct (curl_shape curl_b field prefactor) as [Sb0 Sb1].
  split; [congruence|]. split; [congruence|].
  intros i j Hi Hj.
  destruct (curl_at curl_a field prefactor N M i j Ea0 Ea1 Hi Hj)
    as [Ha0 Ha1].
  destruct (curl_at curl_b field prefactor N M i j Eb0 Eb1 Hi Hj)
    as [Hb0 Hb1].
  cbv zeta in Ha0, Ha1, Hb0, Hb1.
  now rewrite Ha0, Ha1, Hb0, Hb1.
Qed.

End Curl2DProperties.

(** ** The 3D vorticity accumulators *)

Section Vorticity3DProperties.

Variable real_t : scalar.

Add Ring real_t_ring3 : (scalar_ring real_t).

Abbreviation forcing_kernel :=
  (update_vorticity_from_velocity_forcing_pyst_kernel_3d real_t).
Abbreviation penalised_kernel :=
  (update_vorticity_from_penalised_velocity_kernel_3d real_t).

Lemma forcing_shape (w f : vector_field3 real_t) p :
  shape3 (comp0 (forcing_kernel w f p)) = shape3 (comp0 w) /\
  shape3 (comp1 (forcing_kernel w f p)) = shape3 (comp1 w) /\
  shape3 (comp2 (forcing_kernel w f p)) = shape3 (comp2 w).
Proof.
  unfold update_vorticity_from_velocity_forcing_pyst_kernel_3d,
    _update_vorticity_from_velocity_forcing_x_comp_kernel_3d,
    _update_vorticity_from_velocity_forcing_y_comp_kernel_3d,
    _update_vorticity_from_velocity_forcing_z_comp_kernel_3d. simpl.
  now rewrite !create_kernel_3d_shape.
Qed.

Lemma penalised_shape (w pv v : vector_field3 real_t) p :
  shape3 (comp0 (penalised_kernel w pv v p)) = shape3 (comp0 w) /\
  shape3 (comp1 (penalised_kernel w pv v p)) = shape3 (comp1 w) /\
  shape3 (comp2 (penalised_kernel w pv v p)) = shape3 (comp2 w).
Proof.
  unfold update_vorticity_from_penalised_velocity_kernel_3d,
    _update_vorticity_from_penalised_velocity_x_comp_kernel_3d,
    _update_vorticity_from_penalised_velocity_y_comp_kernel_3d,
    _update_vorticity_from_penalised_velocity_z_comp_kernel_3d. simpl.
  now rewrite !create_kernel_3d_shape.
Qed.

(** Every cell of the three components after the forcing accumulator. *)
Lemma forcing_at (w f : vector_field3 real_t) p (n0 n1 n2 i j k : Z) :
  shape3 (comp0 w) = (n0, n1, n2) ->
  shape3 (comp1 w) = (n0, n1, n2) ->
  shape3 (comp2 w) = (n0, n1, n2) ->
  at3 (comp0 (forcing_kernel w f p)) i j k =
    (if interior3 n0 n1 n2 i j k
     then _update_vorticity_from_velocity_forcing_x_comp_stencil_3d real_t
            (comp1 f) (comp2 f) p i j k (at3 (comp0 w) i j k)
     else at3 (comp0 w) i j k) /\
  at3 (comp1 (forcing_kernel w f p)) i j k =
    (if interior3 n0 n1 n2 i j k
     then _update_vorticity_from_velocity_forcing_y_comp_stencil_3d real_t
            (comp0 f) (comp2 f) p i j k (at3 (comp1 w) i j k)
     else at3 (comp1 w) i j k) /\
  at3 (comp2 (forcing_kernel w f p)) i j k =
    (if interior3 n0 n1 n2 i j k
     then _update_vorticity_from_velocity_forcing_z_comp_stencil_3d real_t
            (comp0 f) (comp1 f) p i j k (at3 (comp2 w) i j k)
     else at3 (comp2 w) i j k).
Proof.
  intros E0 E1 E2.
  unfold update_vorticity_from_velocity_forcing_pyst_kernel_3d,
    _update_vorticity_from_velocity_forcing_x_comp_kernel_3d,
    _update_vorticity_from_velocity_forcing_y_comp_kernel_3d,
    _update_vorticity_from_velocity_forcing_z_comp_kernel_3d. simpl.
  rewrite (create_kernel_3d_at _ (comp0 w) n0 n1 n2) by exact E0.
  rewrite (create_kernel_3d_at _ (comp1 w) n0 n1 n2) by exact E1.
  rewrite (create_kernel_3d_at _ (comp2 w) n0 n1 n2) by exact E2.
  repeat split.
Qed.

(** Every cell of the three components after the penalised-velocity
    accumulator. *)
Lemma penalised_at (w pv v : vector_field3 real_t) p
  (n0 n1 n2 i j k : Z) :
  shape3 (comp0 w) = (n0, n1, n2) ->
  shape3 (comp1 w) = (n0, n1, n2) ->
  shape3 (comp2 w) = (n0, n1, n2) ->
  at3 (comp0 (penalised_kernel w pv v p)) i j k =
    (if interior3 n0 n1 n2 i j k
     then _update_vorticity_from_penalised_velocity_x_comp_stencil_3d
            real_t (comp1 pv) (comp2 pv) (comp1 v) (comp2 v) p i j k
            (at3 (comp0 w) i j k)
     else at3 (comp0 w) i j k) /\
  at3 (comp1 (penalised_kernel w pv v p)) i j k =
    (if interior3 n0 n1 n2 i j k
     then _update_vorticity_from_penalised_velocity_y_comp_stencil_3d
            real_t (comp0 pv) (comp2 pv) (comp0 v) (comp2 v) p i j k
            (at3 (comp1 w) i j k)
     else at3 (comp1 w) i j k) /\
  at3 (comp2 (penalised_kernel w pv v p)) i j k =
    (if interior3 n0 n1 n2 i j k
     then _update_vorticity_from_penalised_velocity_z_comp_stencil_3d
            real_t (comp0 pv) (comp1 pv) (comp0 v) (comp1 v) p i j k
            (at3 (comp2 w) i j k)
     else at3 (comp2 w) i j k).
Proof.
  intros E0 E1 E2.
  unfold update_vorticity_from_penalised_velocity_kernel_3d,
    _update_vorticity_from_penalised_velocity_x_comp_kernel_3d,
    _update_vorticity_from_penalised_velocity_y_comp_kernel_3d,
    _update_vorticity_from_penalised_velocity_z_comp_kernel_3d. simpl.
  rewrite (create_kernel_3d_at _ (comp0 w) n0 n1 n2) by exact E0.
  rewrite (create_kernel_3d_at _ (comp1 w) n0 n1 n2) by exact E1.
  rewrite (create_kernel_3d_at _ (comp2 w) n0 n1 n2) by exact E2.
  repeat split.
Qed.

Lemma interior3_true (n0 n1 n2 i j k : Z) :
  1 <= i <= n0 - 2 -> 1 <= j <= n1 - 2 -> 1 <= k <= n2 - 2 ->
  interior3 n0 n1 n2 i j k = true.
Proof. intros. unfold interior3. zcases. Qed.

Lemma interior3_false (n0 n1 n2 i j k : Z) :
  i = 0 \/ i = n0 - 1 \/ j = 0 \/ j = n1 - 1 \/ k = 0 \/ k = n2 - 1 ->
  interior3 n0 n1 n2 i j k = false.
Proof. intros. unfold interior3. zcases. Qed.

(** The increment of every stencil is the curl component of section 4.3
    at the point the cell stands for. *)
Lemma forcing_stencils_are_spec_curl (f : vector_field3 real_t) p
  (c0 c1 c2 : Z) (old : real_t) :
  _update_vorticity_from_velocity_forcing_x_comp_stencil_3d real_t
    (comp1 f) (comp2 f) p c0 c1 c2 old
  = (old + p * spec_curl_x real_t f c2 c1 c0)%S /\
  _update_vorticity_from_velocity_forcing_y_comp_stencil_3d real_t
    (comp0 f) (comp2 f) p c0 c1 c2 old
  = (old + p * spec_curl_y real_t f c2 c1 c0)%S /\
  _update_vorticity_from_velocity_forcing_z_comp_stencil_3d real_t
    (comp0 f) (comp1 f) p c0 c1 c2 old
  = (old + p * spec_curl_z real_t f c2 c1 c0)%S.
Proof. repeat split. Qed.

(** C3.  On a grid with extents >= 3, at every interior cell the forcing
    accumulator leaves in each component of the vorticity its initial
    value plus prefactor times the central-difference curl component of
    the forcing field; the update of a component does not read the same
    component of the forcing field. *)
Theorem forcing_adds_curl_at_interior
  (vorticity_field velocity_forcing_field : vector_field3 real_t)
  (prefactor : real_t) (n0 n1 n2 i j k : Z) :
  shape3 (comp0 vorticity_field) = (n0, n1, n2) ->
  shape3 (comp1 vorticity_field) = (n0, n1, n2) ->
  shape3 (comp2 vorticity_field) = (n0, n1, n2) ->
  shape3 (comp0 velocity_forcing_field) = (n0, n1, n2) ->
  shape3 (comp1 velocity_forcing_field) = (n0, n1, n2) ->
  shape3 (comp2 velocity_forcing_field) = (n0, n1, n2) ->
  3 <= n0 -> 3 <= n1 -> 3 <= n2 ->
  1 <= i <= n0 - 2 -> 1 <= j <= n1 - 2 -> 1 <= k <= n2 - 2 ->
  let run := update_vorticity_from_velocity_forcing_pyst_kernel_3d real_t in
  let out := run vorticity_field velocity_forcing_field prefactor in
  let fx := at3 (comp0 velocity_forcing_field) in
  let fy := at3 (comp1 velocity_forcing_field) in
  let fz := at3 (comp2 velocity_forcing_field) in
  (at3 (comp0 out) i j k =
     (at3 (comp0 vorticity_field) i j k + prefactor *
        (fz i (j + 1)%Z k - fz i (j - 1)%Z k
         - fy (i + 1)%Z j k + fy (i - 1)%Z j k))%S /\
   at3 (comp1 out) i j k =
     (at3 (comp1 vorticity_field) i j k + prefactor *
        (fx (i + 1)%Z j k - fx (i - 1)%Z j k
         - fz i j (k + 1)%Z + fz i j (k - 1)%Z))%S /\
   at3 (comp2 out) i j k =
     (at3 (comp2 vorticity_field) i j k + prefactor *
        (fy i j (k + 1)%Z - fy i j (k - 1)%Z
         - fx i (j + 1)%Z k + fx i (j - 1)%Z k))%S) /\
  (forall g : ndarray3 real_t,
     comp0 (run vorticity_field
              (VectorField3 g (comp1 velocity_forcing_field)
                 (comp2 velocity_forcing_field)) prefactor) = comp0 out /\
     comp1 (run vorticity_field
              (VectorField3 (comp0 velocity_forcing_field) g
                 (comp2 velocity_forcing_field)) prefactor) = comp1 out /\
     comp2 (run vorticity_field
              (VectorField3 (comp0 velocity_forcing_field)
                 (comp1 velocity_forcing_field) g) prefactor) = comp2 out).
Proof.
  intros E0 E1 E2 _ _ _ _ _ _ Hi Hj Hk run out fx fy fz.
  subst run out fx fy fz. split.
  - destruct (forcing_at vorticity_field velocity_forcing_field prefactor
                n0 n1 n2 i j k E0 E1 E2) as [H0 [H1 H2]].
    rewrite (interior3_true n0 n1 n2 i j k Hi Hj Hk) in H0, H1, H2.
    rewrite H0, H1, H2. repeat split.
  - intros g. repeat split.
Qed.

(** C8.  On a grid with extents >= 3, both accumulators leave every cell
    of the outermost ring of every vorticity component as it was. *)
Theorem accumulators_leave_boundary_ring
  (vorticity_field velocity_forcing_field penalised_velocity_field
     velocity_field : vector_field3 real_t)
  (prefactor : real_t) (n0 n1 n2 i j k : Z) :
  shape3 (comp0 vorticity_field) = (n0, n1, n2) ->
  shape3 (comp1 vorticity_field) = (n0, n1, n2) ->
  shape3 (comp2 vorticity_field) = (n0, n1, n2) ->
  3 <= n0 -> 3 <= n1 -> 3 <= n2 ->
  0 <= i < n0 -> 0 <= j < n1 -> 0 <= k < n2 ->
  i = 0 \/ i = n0 - 1 \/ j = 0 \/ j = n1 - 1 \/ k = 0 \/ k = n2 - 1 ->
  let out_f := update_vorticity_from_velocity_forcing_pyst_kernel_3d real_t
                 vorticity_field velocity_forcing_field prefactor in
  let out_p := update_vorticity_from_penalised_velocity_kernel_3d real_t
                 vorticity_field penalised_velocity_field velocity_field
                 prefactor in
  (at3 (comp0 out_f) i j k = at3 (comp0 vorticity_field) i j k /\
   at3 (comp1 out_f) i j k = at3 (comp1 vorticity_field) i j k /\
   at3 (comp2 out_f) i j k = at3 (comp2 vorticity_field) i j k) /\
  (at3 (comp0 out_p) i j k = at3 (comp0 vorticity_field) i j k /\
   at3 (comp1 out_p) i j k = at3 (comp1 vorticity_field) i j k /\
   at3 (comp2 out_p) i j k = at3 (comp2 vorticity_field) i j k).
Proof.
  intros E0 E1 E2 _ _ _ _ _ _ Hring out_f out_p. subst out_f out_p.
  pose proof (forcing_at vorticity_field velocity_forcing_field prefactor
                n0 n1 n2 i j k E0 E1 E2) as Hf.
  pose proof (penalised_at vorticity_field penalised_velocity_field
                velocity_field prefactor n0 n1 n2 i j k E0 E1 E2) as Hp.
  rewrite (interior3_false n0 n1 n2 i j k Hring) in Hf, Hp.
  split; assumption.
Qed.

(** C1.  On every grid, from the same initial vorticity and prefactor,
    the forcing accumulator run on the forcing field P - V ends with the
    same vorticity field as the penalised-velocity accumulator run on
    (P, V), in exact arithmetic. *)
Theorem accumulators_agree
  (vorticity_field penalised_velocity_field velocity_field
     : vector_field3 real_t)
  (prefactor : real_t) (n0 n1 n2 : Z) :
  shape3 (comp0 vorticity_field) = (n0, n1, n2) ->
  shape3 (comp1 vorticity_field) = (n0, n1, n2) ->
  shape3 (comp2 vorticity_field) = (n0, n1, n2) ->
  let velocity_forcing_field :=
    vector_field3_sub real_t penalised_velocity_field velocity_field in
  let out_f := update_vorticity_from_velocity_forcing_pyst_kernel_3d real_t
                 vorticity_field velocity_forcing_field prefactor in
  let out_p := update_vorticity_from_penalised_velocity_kernel_3d real_t
                 vorticity_field penalised_velocity_field velocity_field
                 prefactor in
  (shape3 (comp0 out_f) = shape3 (comp0 out_p) /\
   shape3 (comp1 out_f) = shape3 (comp1 out_p) /\
   shape3 (comp2 out_f) = shape3 (comp2 out_p)) /\
  forall i j k,
    at3 (comp0 out_f) i j k = at3 (comp0 out_p) i j k /\
    at3 (comp1 out_f) i j k = at3 (comp1 out_p) i j k /\
    at3 (comp2 out_f) i j k = at3 (comp2 out_p) i j k.
Proof.
  intros E0 E1 E2 f out_f out_p. subst out_f out_p.
  split.
  - destruct (forcing_shape vorticity_field f prefactor) as [F0 [F1 F2]].
    destruct (penalised_shape vorticity_field penalised_velocity_field
                velocity_field prefactor) as [P0 [P1 P2]].
    repeat split; congruence.
  - intros i j k.
    destruct (forcing_at vorticity_field f prefactor
                n0 n1 n2 i j k E0 E1 E2) as [F0 [F1 F2]].
    destruct (penalised_at vorticity_field penalised_velocity_field
                velocity_field prefactor n0 n1 n2 i j k E0 E1 E2)
      as [P0 [P1 P2]].
    rewrite F0, F1, F2, P0, P1, P2.
    destruct (interior3 n0 n1 n2 i j k); [|repeat split].
    unfold _update_vorticity_from_velocity_forcing_x_comp_stencil_3d,
      _update_vorticity_from_velocity_forcing_y_comp_stencil_3d,
      _update_vorticity_from_velocity_forcing_z_comp_stencil_3d,
      _update_vorticity_from_penalised_velocity_x_comp_stencil_3d,
      _update_vorticity_from_penalised_velocity_y_comp_stencil_3d,
      _update_vorticity_from_penalised_velocity_z_comp_stencil_3d.
    subst f. simpl. repeat split; ring.
Qed.

End Vorticity3DProperties.

(** ** Construction of the boundary penalisation kernel *)

Lemma normalize_index_first (size : Z) :
  0 < size -> normalize_index 0 size = ret 0.
Proof.
  intros H. unfold normalize_index.
  change (0 <? 0) with false. change (0 <=? 0) with true. cbv iota.
  destruct (Z.ltb_spec 0 size); [reflexivity | lia].
Qed.

Lemma normalize_index_last (size : Z) :
  0 < size -> normalize_index (-1) size = ret (size - 1).
Proof.
  intros H. unfold normalize_index.
  change (-1 <? 0) with true. cbv iota.
  replace (-1 + size) with (size - 1) by lia.
  destruct (Z.leb_spec 0 (size - 1)); [|lia].
  destruct (Z.ltb_spec (size - 1) size); [reflexivity | lia].
Qed.

Lemma pydiv_by_zero (a b : R) :
  b = 0%R -> pydiv a b = raise ZeroDivisionError.
Proof.
  intros Hb. unfold pydiv. destruct (Req_dec_T b 0); [reflexivity|].
  contradiction.
Qed.

Lemma pydiv_by_nonzero (a b : R) :
  b <> 0%R -> pydiv a b = ret (a / b)%R.
Proof.
  intros Hb. unfold pydiv. destruct (Req_dec_T b 0); [|reflexivity].
  contradiction.
Qed.

(** The reference coordinates read by the generator. *)
Lemma gen_reads_reference_coordinates (width : pynumber) (dx : R)
  (xg yg : ndarray2 R) (fgs : option (Z * Z)) (n0 n1 m0 m1 : Z) :
  shape2 xg = (n0, n1) -> shape2 yg = (m0, m1) ->
  0 < n0 -> 0 < n1 -> 0 < m0 -> 0 < m1 ->
  gen_penalise_field_boundary_pyst_kernel_2d width dx xg yg fgs =
  (_ <- assert (pynumber_is_positive width && pynumber_is_int width) ;;
   match width with
   | PyInt w =>
       sine_prefactor <- pydiv (PI / 2) (IZR w * dx) ;;
       ret (PenaliseClosure w sine_prefactor xg yg
              (at2 xg 0 0) (at2 yg 0 0)
              (at2 xg 0 (n1 - 1)) (at2 yg (m0 - 1) 0) fgs)
   | PyFloat _ => raise AssertionError
   end).
Proof.
  intros Ex Ey Hn0 Hn1 Hm0 Hm1.
  unfold gen_penalise_field_boundary_pyst_kernel_2d, getitem2.
  rewrite Ex, Ey. simpl fst. simpl snd.
  rewrite !normalize_index_first, !normalize_index_last by assumption.
  reflexivity.
Qed.

(** With non-empty coordinate arrays, a positive [int] width and a
    non-zero [dx], the generator returns the kernel. *)
Lemma gen_returns_kernel (w : Z) (dx : R) (xg yg : ndarray2 R)
  (fgs : option (Z * Z)) (n0 n1 m0 m1 : Z) :
  shape2 xg = (n0, n1) -> shape2 yg = (m0, m1) ->
  0 < n0 -> 0 < n1 -> 0 < m0 -> 0 < m1 ->
  0 < w -> dx <> 0%R ->
  gen_penalise_field_boundary_pyst_kernel_2d (PyInt w) dx xg yg fgs =
  inr (PenaliseClosure w ((PI / 2) / (IZR w * dx))%R xg yg
         (at2 xg 0 0) (at2 yg 0 0)
         (at2 xg 0 (n1 - 1)) (at2 yg (m0 - 1) 0) fgs).
Proof.
  intros Ex Ey Hn0 Hn1 Hm0 Hm1 Hw Hdx.
  rewrite (gen_reads_reference_coordinates _ dx xg yg fgs n0 n1 m0 m1)
    by assumption.
  simpl. destruct (Z.ltb_spec 0 w); [|lia]. simpl.
  rewrite pydiv_by_nonzero; [reflexivity|].
  apply IZR_lt in Hw. apply Rmult_integral_contrapositive_currified;
    [lra | exact Hdx].
Qed.

(** C6, as the code has it.  Given non-empty 2D coordinate arrays, the
    generator raises an assertion error, and returns no kernel, when
    [width] is not a positive [int].  For a positive [int] width it fails
    on the division by [width * dx] when [dx] is zero, and otherwise
    returns the kernel: with valid [width] and [dx] construction
    succeeds, whatever the shapes of the coordinate arrays and whatever
    grid size the kernel is specialised to. *)
Theorem gen_penalise_checks_width_only (width : pynumber) (dx : R)
  (xg yg : ndarray2 R) (fgs : option (Z * Z)) (n0 n1 m0 m1 : Z) :
  shape2 xg = (n0, n1) -> shape2 yg = (m0, m1) ->
  0 < n0 -> 0 < n1 -> 0 < m0 -> 0 < m1 ->
  let made :=
    gen_penalise_field_boundary_pyst_kernel_2d width dx xg yg fgs in
  (pynumber_is_positive width && pynumber_is_int width = false ->
   made = inl AssertionError) /\
  (forall w, width = PyInt w -> 0 < w -> dx = 0%R ->
   made = inl ZeroDivisionError) /\
  (forall w, width = PyInt w -> 0 < w -> dx <> 0%R ->
   made = inr (PenaliseClosure w ((PI / 2) / (IZR w * dx))%R xg yg
                 (at2 xg 0 0) (at2 yg 0 0)
                 (at2 xg 0 (n1 - 1)) (at2 yg (m0 - 1) 0) fgs)).
Proof.
  intros Ex Ey Hn0 Hn1 Hm0 Hm1 made. subst made.
  split; [|split].
  - intros Hbad.
    rewrite (gen_reads_reference_coordinates width dx xg yg fgs n0 n1 m0 m1)
      by assumption.
    rewrite Hbad. reflexivity.
  - intros w -> Hw Hdx.
    rewrite (gen_reads_reference_coordinates _ dx xg yg fgs n0 n1 m0 m1)
      by assumption.
    simpl. destruct (Z.ltb_spec 0 w); [|lia]. simpl.
    rewrite pydiv_by_zero by (rewrite Hdx; ring). reflexivity.
  - intros w -> Hw Hdx.
    now apply (gen_returns_kernel w dx xg yg fgs n0 n1 m0 m1).
Qed.

(** X6.  Whatever the coordinate arrays, a width that is not a positive
    [int] gets no kernel: the generator raises. *)
Theorem gen_rejects_invalid_width (w : pynumber) (dx : R)
  (xg yg : ndarray2 R) (fgs : option (Z * Z)) :
  pynumber_is_positive w && pynumber_is_int w = false ->
  exists e, gen_penalise_field_boundary_pyst_kernel_2d w dx xg yg fgs
            = inl e.
Proof.
  intros Hbad.
  unfold gen_penalise_field_boundary_pyst_kernel_2d, bind.
  destruct (getitem2 xg 0 0); [eexists; reflexivity|].
  destruct (getitem2 yg 0 0); [eexists; reflexivity|].
  destruct (getitem2 xg 0 (-1)); [eexists; reflexivity|].
  destruct (getitem2 yg (-1) 0); [eexists; reflexivity|].
  rewrite Hbad. simpl. eexists. reflexivity.
Qed.

(** A kernel that was returned has a positive width. *)
Lemma gen_width_positive (w : pynumber) (dx : R)
  (xg yg : ndarray2 R) (fgs : option (Z * Z))
  (K : penalise_field_boundary_closure) :
  gen_penalise_field_boundary_pyst_kernel_2d w dx xg yg fgs = inr K ->
  0 < width K.
Proof.
  unfold gen_penalise_field_boundary_pyst_kernel_2d, bind.
  destruct (getitem2 xg 0 0); [discriminate|].
  destruct (getitem2 yg 0 0); [discriminate|].
  destruct (getitem2 xg 0 (-1)); [discriminate|].
  destruct (getitem2 yg (-1) 0); [discriminate|].
  destruct w as [w | x]; simpl.
  - destruct (Z.ltb_spec 0 w) as [Hw | Hw]; simpl; [|discriminate].
    unfold pydiv. destruct (Req_dec_T (IZR w * dx) 0); simpl;
      [discriminate|].
    intros HK. inversion HK. simpl. assumption.
  - rewrite andb_false_r. simpl. discriminate.
Qed.

(** ** Frame of the boundary penalisation kernel *)

Lemma same_centre_refl w f : same_centre w f f.
Proof. split; [reflexivity | intros; reflexivity]. Qed.

Lemma same_centre_trans w f g h :
  same_centre w f g -> same_centre w g h -> same_centre w f h.
Proof.
  intros [S1 H1] [S2 H2]. split; [congruence|].
  intros i j Hi Hj. rewrite <- (H1 i j Hi Hj).
  apply H2; rewrite S1; assumption.
Qed.

Lemma keeps_centre_seq w s1 s2 :
  keeps_centre w s1 -> keeps_centre w s2 -> keeps_centre w (s1 ;;; s2).
Proof.
  intros H1 H2 f. unfold seq_stmt.
  specialize (H1 f). destruct (s1 f) as [[e|] f1]; simpl in *.
  - exact H1.
  - apply (same_centre_trans w f f1); [exact H1 | apply H2].
Qed.

Lemma numpy_band_slice_front w :
  0 < w -> numpy_band_slice w (None, Some w).
Proof.
  intros Hw n i. unfold in_interval, slice_indices. simpl.
  intros H. apply andb_true_iff in H. destruct H as [_ H].
  destruct (Z.ltb_spec w 0); apply Z.ltb_lt in H; lia.
Qed.

Lemma numpy_band_slice_back w :
  0 < w -> numpy_band_slice w (Some (- w), None).
Proof.
  intros Hw n i. unfold in_interval, slice_indices. simpl.
  intros H. apply andb_true_iff in H. destruct H as [H H'].
  apply Z.ltb_lt in H'.
  destruct (Z.ltb_spec (- w) 0); apply Z.leb_le in H; lia.
Qed.

Lemma pyst_band_slice_front w :
  0 < w -> pyst_band_slice w (None, Some w).
Proof.
  intros Hw n i. unfold in_interval, normalize_slice. simpl.
  intros H. apply andb_true_iff in H. destruct H as [H0 H].
  apply Z.leb_le in H0.
  destruct (Z.ltb_spec w 0); apply Z.ltb_lt in H; lia.
Qed.

Lemma pyst_band_slice_back w :
  0 < w -> pyst_band_slice w (Some (- w), None).
Proof.
  intros Hw n i. unfold in_interval, normalize_slice. simpl.
  intros H. apply andb_true_iff in H. destruct H as [H H'].
  apply Z.ltb_lt in H'.
  destruct (Z.ltb_spec (- w) 0); apply Z.leb_le in H; lia.
Qed.

(** An assignment whose destination lies in the bands along one axis
    keeps the centre, whether it raises or not. *)
Lemma assign_slice_keeps_centre w d0 d1 s0 s1 :
  numpy_band_slice w d0 \/ numpy_band_slice w d1 ->
  keeps_centre w (assign_slice d0 d1 s0 s1).
Proof.
  intros Hband f. unfold assign_slice, setitem_slice2.
  destruct (shape2 f) as [n0 n1] eqn:E.
  destruct (broadcastable _ _ && broadcastable _ _); simpl;
    [|apply same_centre_refl].
  split; simpl; [now rewrite E|].
  rewrite E. simpl. intros i j Hi Hj.
  destruct (in_interval (slice_indices d0 n0) i) eqn:B0; simpl;
    [|reflexivity].
  destruct (in_interval (slice_indices d1 n1) j) eqn:B1; simpl;
    [|reflexivity].
  destruct Hband as [Hb | Hb].
  - apply Hb in B0. lia.
  - apply Hb in B1. lia.
Qed.

(** So does a kernel whose iteration slice lies in the bands along one
    axis. *)
Lemma sliced_kernel_keeps_centre w sl0 sl1 rhs grid_field :
  pyst_band_slice w sl0 \/ pyst_band_slice w sl1 ->
  keeps_centre w
    (call_kernel (create_sliced_kernel_2d sl0 sl1 rhs) grid_field).
Proof.
  intros Hband f. unfold call_kernel.
  destruct (shape_eqb (shape2 f) (shape2 grid_field)); simpl;
    [|apply same_centre_refl].
  split; [apply create_sliced_kernel_2d_shape|].
  destruct (shape2 f) as [n0 n1] eqn:E. simpl. intros i j Hi Hj.
  rewrite (create_sliced_kernel_2d_at _ _ _ _ n0 n1) by exact E.
  destruct (in_interval (normalize_slice sl0 n0) i) eqn:B0; simpl;
    [|reflexivity].
  destruct (in_interval (normalize_slice sl1 n1) j) eqn:B1; simpl;
    [|reflexivity].
  destruct Hband as [Hb | Hb].
  - apply Hb in B0. lia.
  - apply Hb in B1. lia.
Qed.

Lemma penalise_keeps_centre (K : penalise_field_boundary_closure) :
  0 < width K ->
  keeps_centre (width K) (penalise_field_boundary_pyst_kernel_2d K).
Proof.
  intros Hw. unfold penalise_field_boundary_pyst_kernel_2d.
  repeat apply keeps_centre_seq.
  - apply assign_slice_keeps_centre. right. now apply numpy_band_slice_front.
  - apply assign_slice_keeps_centre. right. now apply numpy_band_slice_back.
  - apply sliced_kernel_keeps_centre. right. now apply pyst_band_slice_front.
  - apply sliced_kernel_keeps_centre. right. now apply pyst_band_slice_back.
  - apply assign_slice_keeps_centre. left. now apply numpy_band_slice_front.
  - apply assign_slice_keeps_centre. left. now apply numpy_band_slice_back.
  - apply sliced_kernel_keeps_centre. left. now apply pyst_band_slice_front.
  - apply sliced_kernel_keeps_centre. left. now apply pyst_band_slice_back.
Qed.

(** C7.  For every kernel the generator returned (so [width >= 1]), on a
    field whose extents exceed twice the width, a call leaves unchanged
    every cell that lies outside the four edge bands of thickness [width],
    and the shape of the buffer. *)
Theorem penalise_leaves_centre_unchanged (w : pynumber) (dx : R)
  (xg yg : ndarray2 R) (fgs : option (Z * Z))
  (K : penalise_field_boundary_closure) (field : ndarray2 R)
  (n0 n1 i j : Z) :
  gen_penalise_field_boundary_pyst_kernel_2d w dx xg yg fgs = inr K ->
  shape2 field = (n0, n1) ->
  2 * width K < n0 -> 2 * width K < n1 ->
  width K <= i < n0 - width K -> width K <= j < n1 - width K ->
  let field' := snd (penalise_field_boundary_pyst_kernel_2d K field) in
  shape2 field' = (n0, n1) /\ at2 field' i j = at2 field i j.
Proof.
  intros HK E _ _ Hi Hj field'. subst field'.
  apply gen_width_positive in HK.
  destruct (penalise_keeps_centre K HK field) as [Hs Hc].
  split; [congruence|].
  apply Hc; rewrite E; assumption.
Qed.

(** ** The sine taper *)

Lemma taper_profile_outer (w : Z) : taper_profile w 0 = 0%R.
Proof.
  unfold taper_profile. unfold Rdiv at 2. rewrite Rmult_0_l, Rmult_0_r.
  apply sin_0.
Qed.

Lemma taper_profile_full (w : Z) : 0 < w -> taper_profile w w = 1%R.
Proof.
  intros Hw. unfold taper_profile.
  replace (PI / 2 * (IZR w / IZR w))%R with (PI / 2)%R.
  - apply sin_PI2.
  - apply IZR_lt in Hw. field. lra.
Qed.

Lemma band_fraction (w d : Z) :
  0 < w -> 0 <= d <= w -> (0 <= IZR d / IZR w <= 1)%R.
Proof.
  intros Hw [Hd0 Hd1].
  apply IZR_lt in Hw. apply IZR_le in Hd0, Hd1.
  split.
  - apply Rmult_le_pos; [lra|]. left. now apply Rinv_0_lt_compat.
  - apply (Rmult_le_reg_r (IZR w)); [lra|].
    unfold Rdiv. rewrite Rmult_assoc, Rinv_l by lra. lra.
Qed.

Lemma band_fraction_mono (w d d' : Z) :
  0 < w -> d <= d' -> (IZR d / IZR w <= IZR d' / IZR w)%R.
Proof.
  intros Hw Hd. apply IZR_lt in Hw. apply IZR_le in Hd.
  unfold Rdiv. apply Rmult_le_compat_r; [|lra].
  left. now apply Rinv_0_lt_compat.
Qed.

Lemma band_fraction_lt_1 (w d : Z) :
  0 < w -> d < w -> (IZR d / IZR w < 1)%R.
Proof.
  intros Hw Hd. apply IZR_lt in Hw, Hd.
  apply (Rmult_lt_reg_r (IZR w)); [lra|].
  unfold Rdiv. rewrite Rmult_assoc, Rinv_l by lra. lra.
Qed.

Lemma taper_profile_mono (w d d' : Z) :
  0 < w -> 0 <= d -> d <= d' -> d' <= w ->
  (taper_profile w d <= taper_profile w d')%R.
Proof.
  intros Hw Hd0 Hdd Hd1. unfold taper_profile.
  pose proof PI2_RGT_0 as Hpi.
  pose proof (band_fraction w d Hw ltac:(lia)) as [A0 A1].
  pose proof (band_fraction w d' Hw ltac:(lia)) as [B0 B1].
  pose proof (band_fraction_mono w d d' Hw Hdd) as Hm.
  apply sin_incr_1; nra.
Qed.

Lemma taper_profile_range (w d : Z) :
  0 < w -> 0 <= d <= w -> (0 <= taper_profile w d <= 1)%R.
Proof.
  intros Hw [Hd0 Hd1]. split.
  - rewrite <- (taper_profile_outer w).
    apply taper_profile_mono; lia.
  - rewrite <- (taper_profile_full w Hw).
    apply taper_profile_mono; lia.
Qed.

Lemma taper_profile_lt_1 (w d : Z) :
  0 < w -> 0 <= d < w -> (taper_profile w d < 1)%R.
Proof.
  intros Hw [Hd0 Hd1]. unfold taper_profile.
  pose proof PI2_RGT_0 as Hpi.
  pose proof (band_fraction w d Hw ltac:(lia)) as [A0 A1].
  pose proof (band_fraction_lt_1 w d Hw Hd1) as A2.
  rewrite <- sin_PI2.
  apply sin_increasing_1; nra.
Qed.

(** What each of the four compiled kernels does to a cell of the buffer:
    the cells of its band are multiplied by its taper, the others are
    left alone. *)
Lemma penalise_kernels_at (K : penalise_field_boundary_closure)
  (field : ndarray2 R) (n0 n1 i j : Z) :
  0 < width K -> shape2 field = (n0, n1) ->
  0 <= i < n0 -> 0 <= j < n1 ->
  at2 (penalise_field_x_front_boundary_kernel_2d K field) i j =
    (if j <? width K
     then at2 field i j * x_front_taper K i j else at2 field i j)%R /\
  at2 (penalise_field_x_back_boundary_kernel_2d K field) i j =
    (if n1 - width K <=? j
     then at2 field i j * x_back_taper K i j else at2 field i j)%R /\
  at2 (penalise_field_y_front_boundary_kernel_2d K field) i j =
    (if i <? width K
     then at2 field i j * y_front_taper K i j else at2 field i j)%R /\
  at2 (penalise_field_y_back_boundary_kernel_2d K field) i j =
    (if n0 - width K <=? i
     then at2 field i j * y_back_taper K i j else at2 field i j)%R.
Proof.
  intros Hw E Hi Hj.
  unfold penalise_field_x_front_boundary_kernel_2d,
    penalise_field_x_back_boundary_kernel_2d,
    penalise_field_y_front_boundary_kernel_2d,
    penalise_field_y_back_boundary_kernel_2d,
    x_front_boundary_slice, x_back_boundary_slice,
    y_front_boundary_slice, y_back_boundary_slice.
  rewrite !(create_sliced_kernel_2d_at _ _ _ _ n0 n1) by exact E.
  unfold in_interval, normalize_slice,
    penalise_field_x_front_boundary_stencil_2d,
    penalise_field_x_back_boundary_stencil_2d,
    penalise_field_y_front_boundary_stencil_2d,
    penalise_field_y_back_boundary_stencil_2d. simpl.
  repeat split; zcases.
Qed.

Section UniformGrid.

Variables (w : Z) (dx : R) (xg yg : ndarray2 R) (fgs : option (Z * Z)).
Variable K : penalise_field_boundary_closure.
Variables n0 n1 : Z.

Hypothesis HK :
  gen_penalise_field_boundary_pyst_kernel_2d (PyInt w) dx xg yg fgs = inr K.
Hypothesis Ex : shape2 xg = (n0, n1).
Hypothesis Ey : shape2 yg = (n0, n1).
Hypothesis Hux : uniform_x_grid dx xg.
Hypothesis Huy : uniform_y_grid dx yg.
Hypothesis Hdx : (0 < dx)%R.
Hypothesis Hw : 0 < w.
Hypothesis Hn0 : 2 * w < n0.
Hypothesis Hn1 : 2 * w < n1.

Lemma closure_of_gen :
  K = PenaliseClosure w ((PI / 2) / (IZR w * dx))%R xg yg
        (at2 xg 0 0) (at2 yg 0 0) (at2 xg 0 (n1 - 1)) (at2 yg (n0 - 1) 0)
        fgs.
Proof.
  rewrite (gen_reads_reference_coordinates _ dx xg yg fgs n0 n1 n0 n1)
    in HK by (assumption || lia).
  simpl in HK. destruct (Z.ltb_spec 0 w); [|lia].
  simpl in HK. rewrite pydiv_by_nonzero in HK.
  - simpl in HK. now inversion HK.
  - pose proof (IZR_lt _ _ Hw). apply Rmult_integral_contrapositive_currified;
      lra.
Qed.

Lemma sine_phase (d : Z) :
  ((PI / 2) / (IZR w * dx) * (IZR d * dx) = (PI / 2) * (IZR d / IZR w))%R.
Proof.
  pose proof (IZR_lt _ _ Hw) as Hw'. field. split; lra.
Qed.

(** On a uniform grid the four tapers depend only on the distance of the
    cell from the outer edge of its band, counted in cells. *)
Lemma tapers_on_uniform_grid (i j : Z) :
  0 <= i < n0 -> 0 <= j < n1 ->
  x_front_taper K i j = taper_profile w j /\
  x_back_taper K i j = taper_profile w (n1 - 1 - j) /\
  y_front_taper K i j = taper_profile w i /\
  y_back_taper K i j = taper_profile w (n0 - 1 - i).
Proof.
  intros Hi Hj.
  unfold x_front_taper, x_back_taper, y_front_taper, y_back_taper,
    taper_profile.
  rewrite closure_of_gen. simpl.
  assert (Hx : forall a b, 0 <= a < n0 -> 0 <= b < n1 ->
            at2 xg a b = (at2 xg 0 0 + IZR b * dx)%R).
  { intros a b Ha Hb. apply Hux; rewrite Ex; assumption. }
  assert (Hy : forall a b, 0 <= a < n0 -> 0 <= b < n1 ->
            at2 yg a b = (at2 yg 0 0 + IZR a * dx)%R).
  { intros a b Ha Hb. apply Huy; rewrite Ey; assumption. }
  rewrite (Hx i j), (Hx 0 (n1 - 1)), (Hy i j), (Hy (n0 - 1) 0)
    by (assumption || lia).
  rewrite <- !sine_phase, !minus_IZR.
  repeat split; f_equal; ring.
Qed.

Lemma width_of_gen : width K = w.
Proof. now rewrite closure_of_gen. Qed.

Lemma sine_prefactor_of_gen :
  sine_prefactor K = ((PI / 2) / (IZR w * dx))%R.
Proof. now rewrite closure_of_gen. Qed.

(** C5, as the code has it.  Every cell of a band is multiplied by
    sin(omega * x_local), with omega = (pi/2) / (width * dx) fixed by the
    generator and x_local the distance of the cell from the outermost
    cell of its band.  On a uniform grid the factor is exactly 0 at the
    outermost cell of each band and sin((pi/2) (width - 1) / width), which
    is below 1, at the innermost cell; the sine is 1 only one cell
    further in, at the first cell that no band kernel multiplies. *)
Theorem taper_is_sine_below_one_in_band (i j : Z) :
  0 <= i < n0 -> 0 <= j < n1 ->
  let omega := ((PI / 2) / (IZR w * dx))%R in
  (sine_prefactor K = omega /\
   x_front_taper K i j = sin (omega * (IZR j * dx)) /\
   x_back_taper K i j = sin (omega * (IZR (n1 - 1 - j) * dx)) /\
   y_front_taper K i j = sin (omega * (IZR i * dx)) /\
   y_back_taper K i j = sin (omega * (IZR (n0 - 1 - i) * dx))) /\
  (forall field : ndarray2 R, shape2 field = (n0, n1) ->
   at2 (penalise_field_x_front_boundary_kernel_2d K field) i j =
     (if j <? w then at2 field i j * x_front_taper K i j
      else at2 field i j)%R /\
   at2 (penalise_field_x_back_boundary_kernel_2d K field) i j =
     (if n1 - w <=? j then at2 field i j * x_back_taper K i j
      else at2 field i j)%R /\
   at2 (penalise_field_y_front_boundary_kernel_2d K field) i j =
     (if i <? w then at2 field i j * y_front_taper K i j
      else at2 field i j)%R /\
   at2 (penalise_field_y_back_boundary_kernel_2d K field) i j =
     (if n0 - w <=? i then at2 field i j * y_back_taper K i j
      else at2 field i j)%R) /\
  (x_front_taper K i 0 = 0%R /\
   x_back_taper K i (n1 - 1) = 0%R /\
   y_front_taper K 0 j = 0%R /\
   y_back_taper K (n0 - 1) j = 0%R) /\
  (x_front_taper K i (w - 1) = taper_profile w (w - 1) /\
   x_back_taper K i (n1 - w) = taper_profile w (w - 1) /\
   y_front_taper K (w - 1) j = taper_profile w (w - 1) /\
   y_back_taper K (n0 - w) j = taper_profile w (w - 1)) /\
  (taper_profile w (w - 1) < 1)%R /\
  (x_front_taper K i w = 1%R /\
   x_back_taper K i (n1 - 1 - w) = 1%R /\
   y_front_taper K w j = 1%R /\
   y_back_taper K (n0 - 1 - w) j = 1%R).
Proof.
  intros Hi Hj omega. subst omega.
  assert (T : forall a b, 0 <= a < n0 -> 0 <= b < n1 ->
            x_front_taper K a b = taper_profile w b /\
            x_back_taper K a b = taper_profile w (n1 - 1 - b) /\
            y_front_taper K a b = taper_profile w a /\
            y_back_taper K a b = taper_profile w (n0 - 1 - a))
    by apply tapers_on_uniform_grid.
  split; [|split; [|split; [|split; [|split]]]].
  - destruct (T i j Hi Hj) as [T1 [T2 [T3 T4]]].
    rewrite T1, T2, T3, T4, !sine_phase.
    split; [apply sine_prefactor_of_gen | repeat split].
  - intros field E. rewrite <- width_of_gen.
    apply (penalise_kernels_at K field n0 n1 i j); try assumption.
    rewrite width_of_gen. exact Hw.
  - destruct (T i 0 Hi ltac:(lia)) as [T1 _].
    destruct (T i (n1 - 1) Hi ltac:(lia)) as [_ [T2 _]].
    destruct (T 0 j ltac:(lia) Hj) as [_ [_ [T3 _]]].
    destruct (T (n0 - 1) j ltac:(lia) Hj) as [_ [_ [_ T4]]].
    rewrite T1, T2, T3, T4.
    replace (n1 - 1 - (n1 - 1)) with 0 by lia.
    replace (n0 - 1 - (n0 - 1)) with 0 by lia.
    rewrite taper_profile_outer. repeat split.
  - destruct (T i (w - 1) Hi ltac:(lia)) as [T1 _].
    destruct (T i (n1 - w) Hi ltac:(lia)) as [_ [T2 _]].
    destruct (T (w - 1) j ltac:(lia) Hj) as [_ [_ [T3 _]]].
    destruct (T (n0 - w) j ltac:(lia) Hj) as [_ [_ [_ T4]]].
    rewrite T1, T2, T3, T4.
    replace (n1 - 1 - (n1 - w)) with (w - 1) by lia.
    replace (n0 - 1 - (n0 - w)) with (w - 1) by lia.
    repeat split.
  - apply taper_profile_lt_1; lia.
  - destruct (T i w Hi ltac:(lia)) as [T1 _].
    destruct (T i (n1 - 1 - w) Hi ltac:(lia)) as [_ [T2 _]].
    destruct (T w j ltac:(lia) Hj) as [_ [_ [T3 _]]].
    destruct (T (n0 - 1 - w) j ltac:(lia) Hj) as [_ [_ [_ T4]]].
    rewrite T1, T2, T3, T4.
    replace (n1 - 1 - (n1 - 1 - w)) with w by lia.
    replace (n0 - 1 - (n0 - 1 - w)) with w by lia.
    rewrite taper_profile_full by exact Hw. repeat split.
Qed.


End UniformGrid.

(** ** Scenarios of section 8 *)

Section Scenarios.

Variable real_t : scalar.

Add Ring real_t_ring_scenarios : (scalar_ring real_t).

(** X3.  Curl linearity: the curl of [a f1 + b f2] is [a] times the curl of
    [f1] plus [b] times the curl of [f2], at every cell of the grid. *)
Theorem curl_linear (c c1 c2 : vector_field2 real_t)
  (f1 f2 : ndarray2 real_t) (a b prefactor : real_t) (N M i j : Z) :
  shape2 (fst c) = (N, M) -> shape2 (snd c) = (N, M) ->
  shape2 (fst c1) = (N, M) -> shape2 (snd c1) = (N, M) ->
  shape2 (fst c2) = (N, M) -> shape2 (snd c2) = (N, M) ->
  0 <= i < N -> 0 <= j < M ->
  let curl := outplane_field_curl_pyst_kernel_2d real_t in
  let out := curl c (lincomb2 real_t a f1 b f2) prefactor in
  let out1 := curl c1 f1 prefactor in
  let out2 := curl c2 f2 prefactor in
  at2 (fst out) i j = (a * at2 (fst out1) i j + b * at2 (fst out2) i j)%S /\
  at2 (snd out) i j = (a * at2 (snd out1) i j + b * at2 (snd out2) i j)%S.
Proof.
  intros E0 E1 E10 E11 E20 E21 Hi Hj curl out out1 out2.
  subst curl out out1 out2.
  destruct (curl_at real_t c (lincomb2 real_t a f1 b f2) prefactor N M i j
              E0 E1 Hi Hj) as [H0 H1].
  destruct (curl_at real_t c1 f1 prefactor N M i j E10 E11 Hi Hj)
    as [H10 H11].
  destruct (curl_at real_t c2 f2 prefactor N M i j E20 E21 Hi Hj)
    as [H20 H21].
  cbv zeta in *. rewrite H0, H1, H10, H11, H20, H21.
  destruct ((i <? 1) || (N - 1 <=? i) || (j <? 1) || (M - 1 <=? j));
    simpl; split; ring.
Qed.

(** X4.  The curl of a constant field is zero at every cell. *)
Theorem curl_of_constant_is_zero (c : vector_field2 real_t)
  (v prefactor : real_t) (N M i j : Z) :
  shape2 (fst c) = (N, M) -> shape2 (snd c) = (N, M) ->
  0 <= i < N -> 0 <= j < M ->
  let out := outplane_field_curl_pyst_kernel_2d real_t c (full2 (N, M) v)
               prefactor in
  at2 (fst out) i j = s0 /\ at2 (snd out) i j = s0.
Proof.
  intros E0 E1 Hi Hj out. subst out.
  destruct (curl_at real_t c (full2 (N, M) v) prefactor N M i j
              E0 E1 Hi Hj) as [H0 H1].
  cbv zeta in *. rewrite H0, H1.
  destruct ((i <? 1) || (N - 1 <=? i) || (j <? 1) || (M - 1 <=? j));
    simpl; split; ring.
Qed.

(** X5.  A forcing field that is constant in each component changes no
    cell of the vorticity. *)
Theorem constant_forcing_changes_nothing (w : vector_field3 real_t)
  (vx vy vz prefactor : real_t) (n0 n1 n2 i j k : Z) :
  shape3 (comp0 w) = (n0, n1, n2) ->
  shape3 (comp1 w) = (n0, n1, n2) ->
  shape3 (comp2 w) = (n0, n1, n2) ->
  let f := VectorField3 (full3 (n0, n1, n2) vx) (full3 (n0, n1, n2) vy)
             (full3 (n0, n1, n2) vz) in
  let out := update_vorticity_from_velocity_forcing_pyst_kernel_3d real_t
               w f prefactor in
  at3 (comp0 out) i j k = at3 (comp0 w) i j k /\
  at3 (comp1 out) i j k = at3 (comp1 w) i j k /\
  at3 (comp2 out) i j k = at3 (comp2 w) i j k.
Proof.
  intros E0 E1 E2 f out. subst out.
  destruct (forcing_at real_t w f prefactor n0 n1 n2 i j k E0 E1 E2)
    as [H0 [H1 H2]].
  rewrite H0, H1, H2.
  destruct (interior3 n0 n1 n2 i j k); [|repeat split].
  unfold _update_vorticity_from_velocity_forcing_x_comp_stencil_3d,
    _update_vorticity_from_velocity_forcing_y_comp_stencil_3d,
    _update_vorticity_from_velocity_forcing_z_comp_stencil_3d.
  subst f. simpl. repeat split; ring.
Qed.

End Scenarios.

(** ** Repeated and combined calls of the accumulators *)

Section Accumulation.

Variable real_t : scalar.

Add Ring real_t_ring_accumulation : (scalar_ring real_t).

Abbreviation forcing :=
  (update_vorticity_from_velocity_forcing_pyst_kernel_3d real_t).
Abbreviation penalised :=
  (update_vorticity_from_penalised_velocity_kernel_3d real_t).

Variables (w : vector_field3 real_t) (n0 n1 n2 : Z).

Hypothesis E0 : shape3 (comp0 w) = (n0, n1, n2).
Hypothesis E1 : shape3 (comp1 w) = (n0, n1, n2).
Hypothesis E2 : shape3 (comp2 w) = (n0, n1, n2).

Lemma forcing_keeps_shapes (f : vector_field3 real_t) (p : real_t) :
  shape3 (comp0 (forcing w f p)) = (n0, n1, n2) /\
  shape3 (comp1 (forcing w f p)) = (n0, n1, n2) /\
  shape3 (comp2 (forcing w f p)) = (n0, n1, n2).
Proof.
  destruct (forcing_shape real_t w f p) as [S0 [S1 S2]].
  repeat split; congruence.
Qed.

Ltac unfold_forcing_stencils :=
  unfold _update_vorticity_from_velocity_forcing_x_comp_stencil_3d,
    _update_vorticity_from_velocity_forcing_y_comp_stencil_3d,
    _update_vorticity_from_velocity_forcing_z_comp_stencil_3d,
    _update_vorticity_from_penalised_velocity_x_comp_stencil_3d,
    _update_vorticity_from_penalised_velocity_y_comp_stencil_3d,
    _update_vorticity_from_penalised_velocity_z_comp_stencil_3d.

(** X7.  Two calls on the same forcing field, with prefactors [p1] then
    [p2], leave the vorticity one call with [p1 + p2] leaves. *)
Theorem forcing_calls_add_prefactors (f : vector_field3 real_t)
  (p1 p2 : real_t) (i j k : Z) :
  let twice := forcing (forcing w f p1) f p2 in
  let once := forcing w f (p1 + p2)%S in
  at3 (comp0 twice) i j k = at3 (comp0 once) i j k /\
  at3 (comp1 twice) i j k = at3 (comp1 once) i j k /\
  at3 (comp2 twice) i j k = at3 (comp2 once) i j k.
Proof.
  intros twice once. subst twice once.
  destruct (forcing_keeps_shapes f p1) as [S0 [S1 S2]].
  destruct (forcing_at real_t (forcing w f p1) f p2 n0 n1 n2 i j k S0 S1 S2)
    as [A0 [A1 A2]].
  destruct (forcing_at real_t w f p1 n0 n1 n2 i j k E0 E1 E2)
    as [B0 [B1 B2]].
  destruct (forcing_at real_t w f (p1 + p2)%S n0 n1 n2 i j k E0 E1 E2)
    as [C0 [C1 C2]].
  rewrite A0, A1, A2, B0, B1, B2, C0, C1, C2.
  destruct (interior3 n0 n1 n2 i j k); [|repeat split].
  unfold_forcing_stencils. repeat split; ring.
Qed.

(** X8.  A call with prefactor [p] followed by a call with [- p] on the
    same forcing field restores every cell of the vorticity. *)
Theorem forcing_undone_by_opposite_prefactor (f : vector_field3 real_t)
  (p : real_t) (i j k : Z) :
  let back := forcing (forcing w f p) f (sopp p) in
  at3 (comp0 back) i j k = at3 (comp0 w) i j k /\
  at3 (comp1 back) i j k = at3 (comp1 w) i j k /\
  at3 (comp2 back) i j k = at3 (comp2 w) i j k.
Proof.
  intros back. subst back.
  destruct (forcing_keeps_shapes f p) as [S0 [S1 S2]].
  destruct (forcing_at real_t (forcing w f p) f (sopp p) n0 n1 n2 i j k
              S0 S1 S2) as [A0 [A1 A2]].
  destruct (forcing_at real_t w f p n0 n1 n2 i j k E0 E1 E2)
    as [B0 [B1 B2]].
  rewrite A0, A1, A2, B0, B1, B2.
  destruct (interior3 n0 n1 n2 i j k); [|repeat split].
  unfold_forcing_stencils. repeat split; ring.
Qed.

(** X9.  Calls on two forcing fields can be made in either order, and
    leave the vorticity one call on the sum of the fields leaves. *)
Theorem forcing_calls_add_fields (f g : vector_field3 real_t)
  (p : real_t) (i j k : Z) :
  let fg := forcing (forcing w f p) g p in
  let gf := forcing (forcing w g p) f p in
  let sum := forcing w (vector_field3_add real_t f g) p in
  (at3 (comp0 fg) i j k = at3 (comp0 sum) i j k /\
   at3 (comp1 fg) i j k = at3 (comp1 sum) i j k /\
   at3 (comp2 fg) i j k = at3 (comp2 sum) i j k) /\
  (at3 (comp0 gf) i j k = at3 (comp0 sum) i j k /\
   at3 (comp1 gf) i j k = at3 (comp1 sum) i j k /\
   at3 (comp2 gf) i j k = at3 (comp2 sum) i j k).
Proof.
  intros fg gf sum. subst fg gf sum.
  destruct (forcing_keeps_shapes f p) as [S0 [S1 S2]].
  destruct (forcing_keeps_shapes g p) as [T0 [T1 T2]].
  destruct (forcing_at real_t (forcing w f p) g p n0 n1 n2 i j k S0 S1 S2)
    as [A0 [A1 A2]].
  destruct (forcing_at real_t (forcing w g p) f p n0 n1 n2 i j k T0 T1 T2)
    as [A0' [A1' A2']].
  destruct (forcing_at real_t w f p n0 n1 n2 i j k E0 E1 E2)
    as [B0 [B1 B2]].
  destruct (forcing_at real_t w g p n0 n1 n2 i j k E0 E1 E2)
    as [B0' [B1' B2']].
  destruct (forcing_at real_t w (vector_field3_add real_t f g) p
              n0 n1 n2 i j k E0 E1 E2) as [C0 [C1 C2]].
  rewrite A0, A1, A2, A0', A1', A2', B0, B1, B2, B0', B1', B2',
    C0, C1, C2.
  destruct (interior3 n0 n1 n2 i j k); [|repeat split].
  unfold_forcing_stencils. simpl. repeat split; ring.
Qed.

(** X10.  With the penalised velocity equal to the velocity, the
    penalised-velocity accumulator changes no cell of the vorticity. *)
Theorem penalised_with_equal_fields_changes_nothing
  (v : vector_field3 real_t) (p : real_t) (i j k : Z) :
  let out := penalised w v v p in
  at3 (comp0 out) i j k = at3 (comp0 w) i j k /\
  at3 (comp1 out) i j k = at3 (comp1 w) i j k /\
  at3 (comp2 out) i j k = at3 (comp2 w) i j k.
Proof.
  intros out. subst out.
  destruct (penalised_at real_t w v v p n0 n1 n2 i j k E0 E1 E2)
    as [A0 [A1 A2]].
  rewrite A0, A1, A2.
  destruct (interior3 n0 n1 n2 i j k); [|repeat split].
  unfold_forcing_stencils. repeat split; ring.
Qed.

(** X11.  Two cells inside the grid, where all six neighbours are
    interior cells, both accumulators leave the central-difference
    divergence of the vorticity as it was: what they add is the curl of a
    field, and the central-difference divergence of that curl is zero. *)
Theorem accumulators_keep_divergence (f pv v : vector_field3 real_t)
  (p : real_t) (i j k : Z) :
  2 <= i <= n0 - 3 -> 2 <= j <= n1 - 3 -> 2 <= k <= n2 - 3 ->
  divergence3 real_t (forcing w f p) i j k = divergence3 real_t w i j k /\
  divergence3 real_t (penalised w pv v p) i j k
  = divergence3 real_t w i j k.
Proof.
  intros Hi Hj Hk.
  assert (F : forall a b c,
            1 <= a <= n0 - 2 -> 1 <= b <= n1 - 2 -> 1 <= c <= n2 - 2 ->
            at3 (comp0 (forcing w f p)) a b c =
              _update_vorticity_from_velocity_forcing_x_comp_stencil_3d
                real_t (comp1 f) (comp2 f) p a b c (at3 (comp0 w) a b c) /\
            at3 (comp1 (forcing w f p)) a b c =
              _update_vorticity_from_velocity_forcing_y_comp_stencil_3d
                real_t (comp0 f) (comp2 f) p a b c (at3 (comp1 w) a b c) /\
            at3 (comp2 (forcing w f p)) a b c =
              _update_vorticity_from_velocity_forcing_z_comp_stencil_3d
                real_t (comp0 f) (comp1 f) p a b c (at3 (comp2 w) a b c)).
  { intros a b c Ha Hb Hc.
    pose proof (forcing_at real_t w f p n0 n1 n2 a b c E0 E1 E2) as H.
    rewrite (interior3_true n0 n1 n2 a b c Ha Hb Hc) in H. exact H. }
  assert (P : forall a b c,
            1 <= a <= n0 - 2 -> 1 <= b <= n1 - 2 -> 1 <= c <= n2 - 2 ->
            at3 (comp0 (penalised w pv v p)) a b c =
              _update_vorticity_from_penalised_velocity_x_comp_stencil_3d
                real_t (comp1 pv) (comp2 pv) (comp1 v) (comp2 v) p a b c
                (at3 (comp0 w) a b c) /\
            at3 (comp1 (penalised w pv v p)) a b c =
              _update_vorticity_from_penalised_velocity_y_comp_stencil_3d
                real_t (comp0 pv) (comp2 pv) (comp0 v) (comp2 v) p a b c
                (at3 (comp1 w) a b c) /\
            at3 (comp2 (penalised w pv v p)) a b c =
              _update_vorticity_from_penalised_velocity_z_comp_stencil_3d
                real_t (comp0 pv) (comp1 pv) (comp0 v) (comp1 v) p a b c
                (at3 (comp2 w) a b c)).
  { intros a b c Ha Hb Hc.
    pose proof (penalised_at real_t w pv v p n0 n1 n2 a b c E0 E1 E2) as H.
    rewrite (interior3_true n0 n1 n2 a b c Ha Hb Hc) in H. exact H. }
  unfold divergence3. split.
  - destruct (F i j (k + 1)) as [X1 _]; try lia.
    destruct (F i j (k - 1)) as [X2 _]; try lia.
    destruct (F i (j + 1) k) as [_ [Y1 _]]; try lia.
    destruct (F i (j - 1) k) as [_ [Y2 _]]; try lia.
    destruct (F (i + 1) j k) as [_ [_ Z1]]; try lia.
    destruct (F (i - 1) j k) as [_ [_ Z2]]; try lia.
    rewrite X1, X2, Y1, Y2, Z1, Z2. unfold_forcing_stencils.
    replace (i + 1 - 1) with i by lia. replace (i - 1 + 1) with i by lia.
    replace (j + 1 - 1) with j by lia. replace (j - 1 + 1) with j by lia.
    replace (k + 1 - 1) with k by lia. replace (k - 1 + 1) with k by lia.
    ring.
  - destruct (P i j (k + 1)) as [X1 _]; try lia.
    destruct (P i j (k - 1)) as [X2 _]; try lia.
    destruct (P i (j + 1) k) as [_ [Y1 _]]; try lia.
    destruct (P i (j - 1) k) as [_ [Y2 _]]; try lia.
    destruct (P (i + 1) j k) as [_ [_ Z1]]; try lia.
    destruct (P (i - 1) j k) as [_ [_ Z2]]; try lia.
    rewrite X1, X2, Y1, Y2, Z1, Z2. unfold_forcing_stencils.
    replace (i + 1 - 1) with i by lia. replace (i - 1 + 1) with i by lia.
    replace (j + 1 - 1) with j by lia. replace (j - 1 + 1) with j by lia.
    replace (k + 1 - 1) with k by lia. replace (k - 1 + 1) with k by lia.
    ring.
Qed.

End Accumulation.

Section PenalisedDifference.

Variable real_t : scalar.

Add Ring real_t_ring_penalised_difference : (scalar_ring real_t).

(** X21.  The penalised-velocity accumulator sees its two fields only
    through their difference: adding one and the same field [d] to the
    penalised velocity and to the velocity changes no cell of the
    result. *)
Theorem penalised_depends_on_difference_only
  (w pv v d : vector_field3 real_t) (p : real_t) (n0 n1 n2 i j k : Z) :
  shape3 (comp0 w) = (n0, n1, n2) ->
  shape3 (comp1 w) = (n0, n1, n2) ->
  shape3 (comp2 w) = (n0, n1, n2) ->
  let run := update_vorticity_from_penalised_velocity_kernel_3d real_t in
  let shifted := run w (vector_field3_add real_t pv d)
                   (vector_field3_add real_t v d) p in
  at3 (comp0 shifted) i j k = at3 (comp0 (run w pv v p)) i j k /\
  at3 (comp1 shifted) i j k = at3 (comp1 (run w pv v p)) i j k /\
  at3 (comp2 shifted) i j k = at3 (comp2 (run w pv v p)) i j k.
Proof.
  intros E0 E1 E2 run shifted. subst shifted run. cbv beta.
  destruct (penalised_at real_t w (vector_field3_add real_t pv d)
              (vector_field3_add real_t v d) p n0 n1 n2 i j k E0 E1 E2)
    as [A0 [A1 A2]].
  destruct (penalised_at real_t w pv v p n0 n1 n2 i j k E0 E1 E2)
    as [B0 [B1 B2]].
  rewrite A0, A1, A2, B0, B1, B2.
  destruct (interior3 n0 n1 n2 i j k); [|repeat split].
  unfold _update_vorticity_from_penalised_velocity_x_comp_stencil_3d,
    _update_vorticity_from_penalised_velocity_y_comp_stencil_3d,
    _update_vorticity_from_penalised_velocity_z_comp_stencil_3d.
  simpl. repeat split; ring.
Qed.

End PenalisedDifference.

(** ** Structure of the curl output *)

Section CurlStructure.

Variable real_t : scalar.

Add Ring real_t_ring_curl_structure : (scalar_ring real_t).

Variables (curl : vector_field2 real_t) (N M : Z).

Hypothesis E0 : shape2 (fst curl) = (N, M).
Hypothesis E1 : shape2 (snd curl) = (N, M).


(** X13.  Adding a constant to the field changes no cell of the curl
    output. *)
Theorem curl_ignores_constant_shift (field : ndarray2 real_t)
  (c prefactor : real_t) (i j : Z) :
  0 <= i < N -> 0 <= j < M ->
  let run := outplane_field_curl_pyst_kernel_2d real_t curl in
  at2 (fst (run (add_const2 real_t field c) prefactor)) i j
  = at2 (fst (run field prefactor)) i j /\
  at2 (snd (run (add_const2 real_t field c) prefactor)) i j
  = at2 (snd (run field prefactor)) i j.
Proof.
  intros Hi Hj run. subst run.
  destruct (curl_at real_t curl (add_const2 real_t field c) prefactor
              N M i j E0 E1 Hi Hj) as [H0 H1].
  destruct (curl_at real_t curl field prefactor N M i j E0 E1 Hi Hj)
    as [G0 G1].
  cbv zeta in *. rewrite H0, H1, G0, G1.
  destruct ((i <? 1) || (N - 1 <=? i) || (j <? 1) || (M - 1 <=? j));
    simpl; split; ring.
Qed.

End CurlStructure.

(** ** numpy slices of the band assignments *)

Lemma slice_indices_all (n : Z) : slice_indices (None, None) n = (0, n).
Proof. reflexivity. Qed.

Lemma slice_indices_front (w n : Z) :
  0 <= w <= n -> slice_indices (None, Some w) n = (0, w).
Proof.
  intros H. unfold slice_indices. simpl.
  destruct (Z.ltb_spec w 0); [lia|]. f_equal. lia.
Qed.

Lemma slice_indices_front_source (w n : Z) :
  1 <= w <= n -> slice_indices (Some (w - 1), Some w) n = (w - 1, w).
Proof.
  intros H. unfold slice_indices. simpl.
  destruct (Z.ltb_spec (w - 1) 0); [lia|].
  destruct (Z.ltb_spec w 0); [lia|]. f_equal; lia.
Qed.

Lemma slice_indices_back (w n : Z) :
  1 <= w <= n -> slice_indices (Some (- w), None) n = (n - w, n).
Proof.
  intros H. unfold slice_indices. simpl.
  destruct (Z.ltb_spec (- w) 0); [|lia]. f_equal. lia.
Qed.

Lemma slice_indices_back_source (w n : Z) :
  2 <= w <= n ->
  slice_indices (Some (- w), Some (- w + 1)) n = (n - w, n - w + 1).
Proof.
  intros H. unfold slice_indices. simpl.
  destruct (Z.ltb_spec (- w) 0); [|lia].
  destruct (Z.ltb_spec (- w + 1) 0); [|lia]. f_equal; lia.
Qed.

(** For width 1 the source [-1:0] of the back assignment is empty. *)
Lemma slice_indices_back_source_width_1 (n : Z) :
  1 <= n -> slice_indices (Some (- 1), Some (- 1 + 1)) n = (n - 1, 0).
Proof.
  intros H. unfold slice_indices. simpl.
  f_equal; lia.
Qed.

(** ** The four flat extrapolations *)

Section FlatExtrapolation.

Variables (w n0 n1 : Z) (f : ndarray2 R).

Hypothesis Ef : shape2 f = (n0, n1).
Hypothesis Hw : 2 <= w.
Hypothesis Hn0 : w <= n0.
Hypothesis Hn1 : w <= n1.

(** [field[:, :width] = field[:, (width - 1):width]] *)
Lemma assign_x_front_runs :
  exists f',
    assign_slice (None, None) (None, Some w)
                 (None, None) (Some (w - 1), Some w) f = (None, f') /\
    shape2 f' = (n0, n1) /\
    forall i j, 0 <= i < n0 -> 0 <= j < n1 ->
      at2 f' i j = if j <? w then at2 f i (w - 1) else at2 f i j.
Proof.
  unfold assign_slice, setitem_slice2. rewrite Ef.
  rewrite slice_indices_all, slice_indices_front,
    slice_indices_front_source by lia.
  unfold broadcastable, broadcast_index, interval_length, in_interval.
  cbn [fst snd].
  replace (Z.max (w - (w - 1)) 0) with 1 by lia.
  replace (Z.max (n0 - 0) 0) with n0 by lia.
  rewrite Z.eqb_refl, orb_true_r. cbn [andb orb].
  eexists. split; [reflexivity|]. split; [reflexivity|].
  intros i j Hi Hj. cbn [at2]. zcases.
  all: f_equal; lia.
Qed.

(** [field[:, -width:] = field[:, -width:(-width + 1)]] *)
Lemma assign_x_back_runs :
  exists f',
    assign_slice (None, None) (Some (- w), None)
                 (None, None) (Some (- w), Some (- w + 1)) f = (None, f') /\
    shape2 f' = (n0, n1) /\
    forall i j, 0 <= i < n0 -> 0 <= j < n1 ->
      at2 f' i j = if n1 - w <=? j then at2 f i (n1 - w) else at2 f i j.
Proof.
  unfold assign_slice, setitem_slice2. rewrite Ef.
  rewrite slice_indices_all, slice_indices_back,
    slice_indices_back_source by lia.
  unfold broadcastable, broadcast_index, interval_length, in_interval.
  cbn [fst snd].
  replace (Z.max (n1 - w + 1 - (n1 - w)) 0) with 1 by lia.
  replace (Z.max (n0 - 0) 0) with n0 by lia.
  rewrite Z.eqb_refl, orb_true_r. cbn [andb orb].
  eexists. split; [reflexivity|]. split; [reflexivity|].
  intros i j Hi Hj. cbn [at2]. zcases.
  all: f_equal; lia.
Qed.

(** [field[:width, :] = field[(width - 1):width, :]] *)
Lemma assign_y_front_runs :
  exists f',
    assign_slice (None, Some w) (None, None)
                 (Some (w - 1), Some w) (None, None) f = (None, f') /\
    shape2 f' = (n0, n1) /\
    forall i j, 0 <= i < n0 -> 0 <= j < n1 ->
      at2 f' i j = if i <? w then at2 f (w - 1) j else at2 f i j.
Proof.
  unfold assign_slice, setitem_slice2. rewrite Ef.
  rewrite slice_indices_all, slice_indices_front,
    slice_indices_front_source by lia.
  unfold broadcastable, broadcast_index, interval_length, in_interval.
  cbn [fst snd].
  replace (Z.max (w - (w - 1)) 0) with 1 by lia.
  replace (Z.max (n1 - 0) 0) with n1 by lia.
  rewrite !Z.eqb_refl, orb_true_r. cbn [andb orb].
  eexists. split; [reflexivity|]. split; [reflexivity|].
  intros i j Hi Hj. cbn [at2]. zcases.
  all: f_equal; lia.
Qed.

(** [field[-width:, :] = field[-width:(-width + 1), :]] *)
Lemma assign_y_back_runs :
  exists f',
    assign_slice (Some (- w), None) (None, None)
                 (Some (- w), Some (- w + 1)) (None, None) f = (None, f') /\
    shape2 f' = (n0, n1) /\
    forall i j, 0 <= i < n0 -> 0 <= j < n1 ->
      at2 f' i j = if n0 - w <=? i then at2 f (n0 - w) j else at2 f i j.
Proof.
  unfold assign_slice, setitem_slice2. rewrite Ef.
  rewrite slice_indices_all, slice_indices_back,
    slice_indices_back_source by lia.
  unfold broadcastable, broadcast_index, interval_length, in_interval.
  cbn [fst snd].
  replace (Z.max (n0 - w + 1 - (n0 - w)) 0) with 1 by lia.
  replace (Z.max (n1 - 0) 0) with n1 by lia.
  rewrite !Z.eqb_refl, orb_true_r. cbn [andb orb].
  eexists. split; [reflexivity|]. split; [reflexivity|].
  intros i j Hi Hj. cbn [at2]. zcases.
  all: f_equal; lia.
Qed.

End FlatExtrapolation.

(** ** The whole penalisation call *)

Lemma shape_eqb_eq (a b : Z * Z) : shape_eqb a b = true <-> a = b.
Proof.
  destruct a as [a0 a1], b as [b0 b1]. unfold shape_eqb. simpl.
  rewrite andb_true_iff, !Z.eqb_eq. split.
  - intros [-> ->]. reflexivity.
  - intros H. inversion H. split; reflexivity.
Qed.

Lemma shape_eq_dec (a b : Z * Z) : {a = b} + {a <> b}.
Proof.
  destruct (shape_eqb a b) eqn:E.
  - left. now apply shape_eqb_eq.
  - right. intros H. apply shape_eqb_eq in H. congruence.
Qed.

(** A kernel call runs the loop nest when the shapes agree and is
    rejected, with the buffer as it was, when they differ. *)
Lemma call_kernel_runs kernel (g f : ndarray2 R) :
  shape2 f = shape2 g -> call_kernel kernel g f = (None, kernel f).
Proof.
  intros H. unfold call_kernel.
  now rewrite (proj2 (shape_eqb_eq _ _) H).
Qed.

Lemma call_kernel_rejects kernel (g f : ndarray2 R) :
  shape2 f <> shape2 g -> call_kernel kernel g f = (Some TypeError, f).
Proof.
  intros H. unfold call_kernel.
  destruct (shape_eqb (shape2 f) (shape2 g)) eqn:E; [|reflexivity].
  apply shape_eqb_eq in E. contradiction.
Qed.

Section PenaliseCallStages.

Variables (K : penalise_field_boundary_closure) (n0 n1 : Z).

Hypothesis Hw : 2 <= width K.
Hypothesis Hn0 : 2 * width K <= n0.
Hypothesis Hn1 : 2 * width K <= n1.

(** The two assignments along x. *)
Lemma x_assignments_run (f : ndarray2 R) :
  shape2 f = (n0, n1) ->
  exists f2,
    (forall rest : stmt,
       (assign_slice (None, None) (None, Some (width K))
          (None, None) (Some (width K - 1), Some (width K)) ;;;
        assign_slice (None, None) (Some (- width K), None)
          (None, None) (Some (- width K), Some (- width K + 1)) ;;;
        rest) f = rest f2) /\
    shape2 f2 = (n0, n1) /\
    forall i j, 0 <= i < n0 -> 0 <= j < n1 ->
      at2 f2 i j = flat_along_x (width K) n1 (at2 f) i j.
Proof.
  intros Ef.
  destruct (assign_x_front_runs (width K) n0 n1 f Ef ltac:(lia) ltac:(lia)
              ltac:(lia)) as [f1 [R1 [S1 A1]]].
  destruct (assign_x_back_runs (width K) n0 n1 f1 S1 ltac:(lia) ltac:(lia)
              ltac:(lia)) as [f2 [R2 [S2 A2]]].
  exists f2. split; [|split; [exact S2|]].
  - intros rest. unfold seq_stmt. rewrite R1, R2. reflexivity.
  - intros i j Hi Hj. rewrite A2, !A1 by lia. unfold flat_along_x. zcases.
Qed.

(** The two assignments along y. *)
Lemma y_assignments_run (f : ndarray2 R) :
  shape2 f = (n0, n1) ->
  exists f2,
    (forall rest : stmt,
       (assign_slice (None, Some (width K)) (None, None)
          (Some (width K - 1), Some (width K)) (None, None) ;;;
        assign_slice (Some (- width K), None) (None, None)
          (Some (- width K), Some (- width K + 1)) (None, None) ;;;
        rest) f = rest f2) /\
    shape2 f2 = (n0, n1) /\
    forall i j, 0 <= i < n0 -> 0 <= j < n1 ->
      at2 f2 i j = flat_along_y (width K) n0 (at2 f) i j.
Proof.
  intros Ef.
  destruct (assign_y_front_runs (width K) n0 n1 f Ef ltac:(lia) ltac:(lia)
              ltac:(lia)) as [f1 [R1 [S1 A1]]].
  destruct (assign_y_back_runs (width K) n0 n1 f1 S1 ltac:(lia) ltac:(lia)
              ltac:(lia)) as [f2 [R2 [S2 A2]]].
  exists f2. split; [|split; [exact S2|]].
  - intros rest. unfold seq_stmt. rewrite R1, R2. reflexivity.
  - intros i j Hi Hj. rewrite A2, !A1 by lia. unfold flat_along_y. zcases.
Qed.

(** The two kernel calls along x, on coordinates of the buffer's shape. *)
Lemma x_kernels_run (f : ndarray2 R) :
  shape2 f = (n0, n1) -> shape2 (x_grid_field K) = (n0, n1) ->
  exists f2,
    (forall rest : stmt,
       (call_kernel (penalise_field_x_front_boundary_kernel_2d K)
          (x_grid_field K) ;;;
        call_kernel (penalise_field_x_back_boundary_kernel_2d K)
          (x_grid_field K) ;;;
        rest) f = rest f2) /\
    shape2 f2 = (n0, n1) /\
    forall i j, 0 <= i < n0 -> 0 <= j < n1 ->
      at2 f2 i j =
      (if j <? width K then at2 f i j * x_front_taper K i j
       else if n1 - width K <=? j then at2 f i j * x_back_taper K i j
            else at2 f i j)%R.
Proof.
  intros Ef Ex.
  set (f1 := penalise_field_x_front_boundary_kernel_2d K f).
  assert (S1 : shape2 f1 = (n0, n1)).
  { unfold f1, penalise_field_x_front_boundary_kernel_2d.
    now rewrite create_sliced_kernel_2d_shape. }
  set (f2 := penalise_field_x_back_boundary_kernel_2d K f1).
  assert (S2 : shape2 f2 = (n0, n1)).
  { unfold f2, penalise_field_x_back_boundary_kernel_2d.
    now rewrite create_sliced_kernel_2d_shape. }
  exists f2. split; [|split; [exact S2|]].
  - intros rest. unfold seq_stmt.
    rewrite (call_kernel_runs _ _ f) by congruence. fold f1.
    rewrite (call_kernel_runs _ _ f1) by congruence. reflexivity.
  - intros i j Hi Hj.
    destruct (penalise_kernels_at K f1 n0 n1 i j ltac:(lia) S1 Hi Hj)
      as [_ [A2 _]].
    destruct (penalise_kernels_at K f n0 n1 i j ltac:(lia) Ef Hi Hj)
      as [A1 _].
    fold f1 in A1. fold f2 in A2. rewrite A2, A1. zcases.
Qed.

(** The two kernel calls along y, which end the call. *)
Lemma y_kernels_run (f : ndarray2 R) :
  shape2 f = (n0, n1) -> shape2 (y_grid_field K) = (n0, n1) ->
  exists f2,
    (call_kernel (penalise_field_y_front_boundary_kernel_2d K)
       (y_grid_field K) ;;;
     call_kernel (penalise_field_y_back_boundary_kernel_2d K)
       (y_grid_field K)) f = (None, f2) /\
    shape2 f2 = (n0, n1) /\
    forall i j, 0 <= i < n0 -> 0 <= j < n1 ->
      at2 f2 i j =
      (if i <? width K then at2 f i j * y_front_taper K i j
       else if n0 - width K <=? i then at2 f i j * y_back_taper K i j
            else at2 f i j)%R.
Proof.
  intros Ef Ey.
  set (f1 := penalise_field_y_front_boundary_kernel_2d K f).
  assert (S1 : shape2 f1 = (n0, n1)).
  { unfold f1, penalise_field_y_front_boundary_kernel_2d.
    now rewrite create_sliced_kernel_2d_shape. }
  set (f2 := penalise_field_y_back_boundary_kernel_2d K f1).
  assert (S2 : shape2 f2 = (n0, n1)).
  { unfold f2, penalise_field_y_back_boundary_kernel_2d.
    now rewrite create_sliced_kernel_2d_shape. }
  exists f2. split; [|split; [exact S2|]].
  - unfold seq_stmt.
    rewrite (call_kernel_runs _ _ f) by congruence. fold f1.
    rewrite (call_kernel_runs _ _ f1) by congruence. reflexivity.
  - intros i j Hi Hj.
    destruct (penalise_kernels_at K f1 n0 n1 i j ltac:(lia) S1 Hi Hj)
      as [_ [_ [_ A2]]].
    destruct (penalise_kernels_at K f n0 n1 i j ltac:(lia) Ef Hi Hj)
      as [_ [_ [A1 _]]].
    fold f1 in A1. fold f2 in A2. rewrite A2, A1. zcases.
Qed.

(** Where a call stops and what it leaves: coordinates of another shape
    than the buffer make the first kernel call that gets them reject the
    call, after the assignments before it have run. *)
Lemma penalise_call_stages (field : ndarray2 R) :
  shape2 field = (n0, n1) ->
  let out := penalise_field_boundary_pyst_kernel_2d K field in
  shape2 (snd out) = (n0, n1) /\
  (shape2 (x_grid_field K) <> (n0, n1) ->
   fst out = Some TypeError /\
   forall i j, 0 <= i < n0 -> 0 <= j < n1 ->
     at2 (snd out) i j = flat_along_x (width K) n1 (at2 field) i j) /\
  (shape2 (x_grid_field K) = (n0, n1) ->
   shape2 (y_grid_field K) <> (n0, n1) ->
   fst out = Some TypeError /\
   forall i j, 0 <= i < n0 -> 0 <= j < n1 ->
     at2 (snd out) i j =
     flat_along_y (width K) n0 (after_x_stages K n1 (at2 field)) i j) /\
  (shape2 (x_grid_field K) = (n0, n1) ->
   shape2 (y_grid_field K) = (n0, n1) ->
   fst out = None /\
   forall i j, 0 <= i < n0 -> 0 <= j < n1 ->
     at2 (snd out) i j =
     after_y_stages K n0 (after_x_stages K n1 (at2 field)) i j).
Proof.
  intros Ef out. subst out.
  destruct (x_assignments_run field Ef) as [f2 [R2 [S2 A2]]].
  destruct (shape_eq_dec (shape2 (x_grid_field K)) (n0, n1)) as [Ex | Ex].
  2:{ assert (Hrun : penalise_field_boundary_pyst_kernel_2d K field
                     = (Some TypeError, f2)).
      { unfold penalise_field_boundary_pyst_kernel_2d. cbv zeta.
        rewrite R2. unfold seq_stmt.
        now rewrite (call_kernel_rejects _ _ f2) by congruence. }
      rewrite Hrun. cbn [fst snd].
      split; [exact S2|]. split; [|split].
      - intros _. split; [reflexivity | exact A2].
      - intros Ex'. contradiction.
      - intros Ex'. contradiction. }
  destruct (x_kernels_run f2 S2 Ex) as [f4 [R4 [S4 A4]]].
  assert (X4 : forall i j, 0 <= i < n0 -> 0 <= j < n1 ->
            at2 f4 i j = after_x_stages K n1 (at2 field) i j).
  { intros i j Hi Hj. rewrite A4, !A2 by lia.
    unfold after_x_stages, flat_along_x. zcases. }
  destruct (y_assignments_run f4 S4) as [f6 [R6 [S6 A6]]].
  assert (X6 : forall i j, 0 <= i < n0 -> 0 <= j < n1 ->
            at2 f6 i j =
            flat_along_y (width K) n0 (after_x_stages K n1 (at2 field))
              i j).
  { intros i j Hi Hj. rewrite A6 by lia. unfold flat_along_y.
    zcases; apply X4; lia. }
  destruct (shape_eq_dec (shape2 (y_grid_field K)) (n0, n1)) as [Ey | Ey].
  2:{ assert (Hrun : penalise_field_boundary_pyst_kernel_2d K field
                     = (Some TypeError, f6)).
      { unfold penalise_field_boundary_pyst_kernel_2d. cbv zeta.
        rewrite R2, R4, R6. unfold seq_stmt.
        now rewrite (call_kernel_rejects _ _ f6) by congruence. }
      rewrite Hrun. cbn [fst snd].
      split; [exact S6|]. split; [|split].
      - intros Ex'. contradiction.
      - intros _ _. split; [reflexivity | exact X6].
      - intros _ Ey'. contradiction. }
  destruct (y_kernels_run f6 S6 Ey) as [f8 [R8 [S8 A8]]].
  assert (Hrun : penalise_field_boundary_pyst_kernel_2d K field
                 = (None, f8)).
  { unfold penalise_field_boundary_pyst_kernel_2d. cbv zeta.
    rewrite R2, R4, R6. exact R8. }
  rewrite Hrun. cbn [fst snd].
  split; [exact S8|]. split; [|split].
  - intros Ex'. contradiction.
  - intros _ Ey'. contradiction.
  - intros _ _. split; [reflexivity|].
    intros i j Hi Hj. rewrite A8, !X6 by lia.
    unfold after_y_stages, flat_along_y. zcases.
Qed.

End PenaliseCallStages.

(** Every cell after a call whose bands do not overlap, on coordinates
    of the buffer's shape. *)
Lemma penalise_call_cells
  (K : penalise_field_boundary_closure) (field : ndarray2 R) (n0 n1 : Z) :
  shape2 field = (n0, n1) ->
  shape2 (x_grid_field K) = (n0, n1) ->
  shape2 (y_grid_field K) = (n0, n1) ->
  2 <= width K -> 2 * width K <= n0 -> 2 * width K <= n1 ->
  let out := penalise_field_boundary_pyst_kernel_2d K field in
  fst out = None /\
  shape2 (snd out) = (n0, n1) /\
  forall i j, 0 <= i < n0 -> 0 <= j < n1 ->
    at2 (snd out) i j =
    after_y_stages K n0 (after_x_stages K n1 (at2 field)) i j.
Proof.
  intros Ef Ex Ey Hw Hn0 Hn1 out. subst out.
  destruct (penalise_call_stages K n0 n1 Hw Hn0 Hn1 field Ef)
    as [S [_ [_ H]]].
  destruct (H Ex Ey) as [H1 H2]. repeat split; assumption.
Qed.


(** X1.  For width 1, which the generator accepts, the source slice
    [-width:(-width + 1)] of the second assignment is [-1:0], an empty
    slice: it does not broadcast to the one-column destination, the call
    raises [ValueError] there, and the buffer holds what it held. *)
Theorem penalise_width_1_raises
  (K : penalise_field_boundary_closure) (field : ndarray2 R) (n0 n1 : Z) :
  shape2 field = (n0, n1) -> width K = 1 -> 1 <= n0 -> 1 <= n1 ->
  let out := penalise_field_boundary_pyst_kernel_2d K field in
  fst out = Some ValueError /\
  shape2 (snd out) = (n0, n1) /\
  forall i j, at2 (snd out) i j = at2 field i j.
Proof.
  intros Ef Hw Hn0 Hn1 out. subst out.
  assert (R1 : exists f1,
            assign_slice (None, None) (None, Some 1)
              (None, None) (Some (1 - 1), Some 1) field = (None, f1) /\
            shape2 f1 = (n0, n1) /\
            forall i j, at2 f1 i j = at2 field i j).
  { unfold assign_slice, setitem_slice2. rewrite Ef.
    unfold slice_indices, broadcastable, broadcast_index, interval_length,
      in_interval. cbn [fst snd].
    change (1 - 1) with 0. change (1 <? 0) with false.
    change (0 <? 0) with false. cbv iota.
    replace (Z.min 1 n1) with 1 by lia.
    replace (Z.min 0 n1) with 0 by lia.
    replace (Z.max (n0 - 0) 0) with n0 by lia.
    change (Z.max (1 - 0) 0) with 1.
    rewrite !Z.eqb_refl. cbn [andb orb].
    eexists. split; [reflexivity|]. split; [reflexivity|].
    intros i j. cbn [at2]. zcases.
    all: f_equal; lia. }
  destruct R1 as [f1 [R1 [S1 A1]]].
  assert (R2 : assign_slice (None, None) (Some (- (1)), None)
                 (None, None) (Some (- (1)), Some (- (1) + 1)) f1
               = (Some ValueError, f1)).
  { unfold assign_slice, setitem_slice2. rewrite S1.
    unfold slice_indices, broadcastable, interval_length. cbn [fst snd].
    change (- (1) + 1) with 0. change (- (1) <? 0) with true.
    change (0 <? 0) with false. cbv iota.
    replace (Z.max (n1 + - (1)) 0) with (n1 - 1) by lia.
    replace (Z.min 0 n1) with 0 by lia.
    replace (Z.max (0 - (n1 - 1)) 0) with 0 by lia.
    replace (Z.max (n1 - (n1 - 1)) 0) with 1 by lia.
    change (0 =? 1) with false.
    rewrite andb_false_r. reflexivity. }
  assert (Hrun : penalise_field_boundary_pyst_kernel_2d K field
                 = (Some ValueError, f1)).
  { unfold penalise_field_boundary_pyst_kernel_2d. rewrite Hw.
    unfold seq_stmt at 1. rewrite R1.
    unfold seq_stmt at 1. rewrite R2. reflexivity. }
  rewrite Hrun. cbn [fst snd].
  split; [reflexivity|]. split; [exact S1 | exact A1].
Qed.

(** ** What a penalisation call reads and how it scales *)

Section PenalisedBuffer.

Variables (K : penalise_field_boundary_closure) (field : ndarray2 R).
Variables n0 n1 : Z.

Hypothesis Ef : shape2 field = (n0, n1).
Hypothesis Hw : 2 <= width K.
Hypothesis Hn0 : 2 * width K <= n0.
Hypothesis Hn1 : 2 * width K <= n1.


(** X15.  The call is linear in the buffer: on [a * field + b * g] it
    leaves [a] times what it leaves on [field] plus [b] times what it
    leaves on [g]. *)
Theorem penalise_linear (g : ndarray2 R) (a b : R) (i j : Z) :
  shape2 g = (n0, n1) ->
  0 <= i < n0 -> 0 <= j < n1 ->
  let run f := snd (penalise_field_boundary_pyst_kernel_2d K f) in
  at2 (run (lincomb2 R_scalar a field b g)) i j =
  (a * at2 (run field) i j + b * at2 (run g) i j)%R.
Proof.
  intros Eg Hi Hj run. subst run. cbv beta.
  assert (El : shape2 (lincomb2 R_scalar a field b g) = (n0, n1))
    by exact Ef.
  destruct (penalise_call_stages K n0 n1 Hw Hn0 Hn1 field Ef)
    as [_ [A1 [A2 A3]]].
  destruct (penalise_call_stages K n0 n1 Hw Hn0 Hn1 g Eg)
    as [_ [B1 [B2 B3]]].
  destruct (penalise_call_stages K n0 n1 Hw Hn0 Hn1 _ El)
    as [_ [C1 [C2 C3]]].
  destruct (shape_eq_dec (shape2 (x_grid_field K)) (n0, n1)) as [Ex | Ex].
  2:{ destruct (A1 Ex) as [_ A]. destruct (B1 Ex) as [_ B].
      destruct (C1 Ex) as [_ C].
      rewrite (A i j Hi Hj), (B i j Hi Hj), (C i j Hi Hj).
      unfold flat_along_x. zcases. all: simpl; ring. }
  destruct (shape_eq_dec (shape2 (y_grid_field K)) (n0, n1)) as [Ey | Ey].
  2:{ destruct (A2 Ex Ey) as [_ A]. destruct (B2 Ex Ey) as [_ B].
      destruct (C2 Ex Ey) as [_ C].
      rewrite (A i j Hi Hj), (B i j Hi Hj), (C i j Hi Hj).
      unfold flat_along_y, after_x_stages. zcases. all: simpl; ring. }
  destruct (A3 Ex Ey) as [_ A]. destruct (B3 Ex Ey) as [_ B].
  destruct (C3 Ex Ey) as [_ C].
  rewrite (A i j Hi Hj), (B i j Hi Hj), (C i j Hi Hj).
  unfold after_y_stages, after_x_stages.
  zcases.
  all: simpl; ring.
Qed.

End PenalisedBuffer.

Lemma scaled_by_taper_stays_bounded (a t B : R) :
  (Rabs a <= B)%R -> (0 <= t <= 1)%R -> (Rabs (a * t) <= B)%R.
Proof.
  intros Ha [Ht0 Ht1]. rewrite Rabs_mult, (Rabs_right t) by lra.
  pose proof (Rabs_pos a). nra.
Qed.

Section UniformGridCalls.

Variables (w : Z) (dx : R) (xg yg : ndarray2 R) (fgs : option (Z * Z)).
Variable K : penalise_field_boundary_closure.
Variables (field : ndarray2 R) (n0 n1 : Z).

Hypothesis HK :
  gen_penalise_field_boundary_pyst_kernel_2d (PyInt w) dx xg yg fgs = inr K.
Hypothesis Ex : shape2 xg = (n0, n1).
Hypothesis Ey : shape2 yg = (n0, n1).
Hypothesis Ef : shape2 field = (n0, n1).
Hypothesis Hux : uniform_x_grid dx xg.
Hypothesis Huy : uniform_y_grid dx yg.
Hypothesis Hdx : (0 < dx)%R.
Hypothesis Hw : 2 <= w.
Hypothesis Hn0 : 2 * w < n0.
Hypothesis Hn1 : 2 * w < n1.

Lemma uniform_call_cells :
  width K = w /\
  (forall i j, 0 <= i < n0 -> 0 <= j < n1 ->
     at2 (snd (penalise_field_boundary_pyst_kernel_2d K field)) i j =
     after_y_stages K n0 (after_x_stages K n1 (at2 field)) i j) /\
  (forall i j, 0 <= i < n0 -> 0 <= j < n1 ->
     x_front_taper K i j = taper_profile w j /\
     x_back_taper K i j = taper_profile w (n1 - 1 - j) /\
     y_front_taper K i j = taper_profile w i /\
     y_back_taper K i j = taper_profile w (n0 - 1 - i)).
Proof.
  assert (W : width K = w).
  { apply (width_of_gen w dx xg yg fgs K n0 n1); assumption || lia. }
  assert (C : x_grid_field K = xg /\ y_grid_field K = yg).
  { rewrite (closure_of_gen w dx xg yg fgs K n0 n1) by (assumption || lia).
    split; reflexivity. }
  destruct C as [Cx Cy].
  split; [exact W|]. split.
  - apply (penalise_call_cells K field n0 n1 Ef);
      [rewrite Cx; exact Ex | rewrite Cy; exact Ey | rewrite W; lia ..].
  - apply (tapers_on_uniform_grid w dx xg yg fgs K n0 n1);
      assumption || lia.
Qed.

(** X16.  On a uniform grid the call never amplifies: if every cell of
    the buffer is within [B] in absolute value before the call, every
    cell is within [B] after it. *)
Theorem penalise_never_amplifies (B : R) (i j : Z) :
  (forall a b, 0 <= a < n0 -> 0 <= b < n1 -> (Rabs (at2 field a b) <= B)%R) ->
  0 <= i < n0 -> 0 <= j < n1 ->
  (Rabs (at2 (snd (penalise_field_boundary_pyst_kernel_2d K field)) i j)
   <= B)%R.
Proof.
  intros Hb Hi Hj.
  destruct uniform_call_cells as [W [A T]].
  assert (X : forall a b, 0 <= a < n0 -> 0 <= b < n1 ->
            (Rabs (after_x_stages K n1 (at2 field) a b) <= B)%R).
  { intros a b Ha Hc. unfold after_x_stages. rewrite W.
    destruct (T a b Ha Hc) as [T1 [T2 _]].
    destruct (Z.ltb_spec b w).
    - apply scaled_by_taper_stays_bounded; [apply Hb; lia|].
      rewrite T1. apply taper_profile_range; lia.
    - destruct (Z.leb_spec (n1 - w) b).
      + apply scaled_by_taper_stays_bounded; [apply Hb; lia|].
        rewrite T2. apply taper_profile_range; lia.
      + apply Hb; assumption. }
  rewrite (A i j Hi Hj). unfold after_y_stages. rewrite W.
  destruct (T i j Hi Hj) as [_ [_ [T3 T4]]].
  destruct (Z.ltb_spec i w).
  - apply scaled_by_taper_stays_bounded; [apply X; lia|].
    rewrite T3. apply taper_profile_range; lia.
  - destruct (Z.leb_spec (n0 - w) i).
    + apply scaled_by_taper_stays_bounded; [apply X; lia|].
      rewrite T4. apply taper_profile_range; lia.
    + apply X; assumption.
Qed.


End UniformGridCalls.

(** ** Calls and constructions that raise *)

(** X18.  A width beyond the number of columns makes the first statement
    raise: the source slice [(width - 1):width] selects no column.  The
    call ends in [ValueError] with the buffer untouched. *)
Theorem penalise_width_beyond_columns_raises
  (K : penalise_field_boundary_closure) (field : ndarray2 R) (n0 n1 : Z) :
  shape2 field = (n0, n1) -> 1 <= n1 < width K ->
  penalise_field_boundary_pyst_kernel_2d K field = (Some ValueError, field).
Proof.
  intros Ef Hw.
  unfold penalise_field_boundary_pyst_kernel_2d. unfold seq_stmt at 1.
  assert (R1 : assign_slice (None, None) (None, Some (width K))
                 (None, None) (Some (width K - 1), Some (width K)) field
               = (Some ValueError, field)).
  { unfold assign_slice, setitem_slice2. rewrite Ef.
    unfold slice_indices, broadcastable, interval_length. cbn [fst snd].
    destruct (Z.ltb_spec (width K) 0); [lia|].
    destruct (Z.ltb_spec (width K - 1) 0); [lia|].
    replace (Z.min (width K) n1) with n1 by lia.
    replace (Z.min (width K - 1) n1) with n1 by lia.
    replace (Z.max (n1 - n1) 0) with 0 by lia.
    replace (Z.max (n1 - 0) 0) with n1 by lia.
    destruct (Z.eqb_spec 0 n1); [lia|].
    change (0 =? 1) with false. cbn [orb].
    rewrite andb_false_r. reflexivity. }
  rewrite R1. reflexivity.
Qed.

Section FlatExtrapolationAlongX.

Variables (w n0 n1 : Z) (f : ndarray2 R).

Hypothesis Ef : shape2 f = (n0, n1).
Hypothesis Hw : 2 <= w.
Hypothesis Hn0 : 0 <= n0.
Hypothesis Hn1 : w <= n1.



End FlatExtrapolationAlongX.


(** X22.  An x coordinate array of another shape than the buffer, which
    the generator accepts, is found only at the first kernel call: the
    call raises there, after the two assignments along x have overwritten
    the bands along x with the innermost band columns.  No cell has been
    tapered and the stages along y have not run. *)
Theorem penalise_rejects_mismatched_x_coordinates
  (K : penalise_field_boundary_closure) (field : ndarray2 R) (n0 n1 : Z) :
  shape2 field = (n0, n1) ->
  shape2 (x_grid_field K) <> (n0, n1) ->
  2 <= width K -> 2 * width K <= n0 -> 2 * width K <= n1 ->
  let out := penalise_field_boundary_pyst_kernel_2d K field in
  (exists e, fst out = Some e) /\
  shape2 (snd out) = (n0, n1) /\
  forall i j, 0 <= i < n0 -> 0 <= j < n1 ->
    at2 (snd out) i j = flat_along_x (width K) n1 (at2 field) i j.
Proof.
  intros Ef Ex Hw Hn0 Hn1 out. subst out.
  destruct (penalise_call_stages K n0 n1 Hw Hn0 Hn1 field Ef)
    as [S [H _]].
  destruct (H Ex) as [H1 H2].
  split; [exists TypeError; exact H1|]. split; assumption.
Qed.

Lemma normalize_index_on_empty_axis (i size : Z) :
  size <= 0 -> i = 0 \/ i = -1 ->
  normalize_index i size = raise IndexError.
Proof.
  intros Hs [-> | ->]; unfold normalize_index.
  - change (0 <? 0) with false. cbv iota.
    destruct (Z.ltb_spec 0 size); [lia|].
    now rewrite andb_false_r.
  - change (-1 <? 0) with true. cbv iota.
    destruct (Z.leb_spec 0 (-1 + size)); [lia|]. reflexivity.
Qed.

(** X20.  The generator reads the reference coordinates before it looks
    at [width]: with a coordinate array that has no row or no column it
    raises [IndexError], whatever the width, valid or not. *)
Theorem gen_raises_index_error_on_empty_coordinates (w : pynumber)
  (dx : R) (xg yg : ndarray2 R) (fgs : option (Z * Z))
  (n0 n1 m0 m1 : Z) :
  shape2 xg = (n0, n1) -> shape2 yg = (m0, m1) ->
  n0 <= 0 \/ n1 <= 0 \/ m0 <= 0 \/ m1 <= 0 ->
  gen_penalise_field_boundary_pyst_kernel_2d w dx xg yg fgs
  = inl IndexError.
Proof.
  intros Ex Ey Hempty.
  unfold gen_penalise_field_boundary_pyst_kernel_2d, getitem2.
  rewrite Ex, Ey. cbn [fst snd].
  destruct (Z_lt_le_dec 0 n0) as [Hn0 | Hn0].
  2:{ rewrite (normalize_index_on_empty_axis 0 n0) by auto. reflexivity. }
  rewrite (normalize_index_first n0 Hn0).
  destruct (Z_lt_le_dec 0 n1) as [Hn1 | Hn1].
  2:{ rewrite (normalize_index_on_empty_axis 0 n1) by auto. reflexivity. }
  rewrite (normalize_index_first n1 Hn1).
  destruct (Z_lt_le_dec 0 m0) as [Hm0 | Hm0].
  2:{ rewrite (normalize_index_on_empty_axis 0 m0) by auto. reflexivity. }
  rewrite (normalize_index_first m0 Hm0).
  destruct (Z_lt_le_dec 0 m1) as [Hm1 | Hm1].
  2:{ rewrite (normalize_index_on_empty_axis 0 m1) by auto. reflexivity. }
  lia.
Qed.

(* ================================================================== *)
(** * Part III: the kernels on concrete inputs *)
(* ================================================================== *)

(** ** Runs *)

(** The curl of the 4 x 5 field with prefactor 2, over stale buffers. *)
Example curl_of_example_field :
  let out := outplane_field_curl_pyst_kernel_2d Z_scalar stale_curl_a
               example_field_2d 2 in
  tolist2 (fst out) =
    [[0; 0; 0; 0; 0]; [0; 12; 16; 20; 0]; [0; 20; 24; 28; 0];
     [0; 0; 0; 0; 0]] /\
  tolist2 (snd out) =
    [[0; 0; 0; 0; 0]; [0; -28; -52; -76; 0]; [0; -32; -56; -80; 0];
     [0; 0; 0; 0; 0]].
Proof. vm_compute. split; reflexivity. Qed.

(** The curl of a constant field is zero everywhere (8 x 8, value 5). *)
Example curl_of_constant_field :
  let out := outplane_field_curl_pyst_kernel_2d Z_scalar
               (full2 (8, 8) 1, full2 (8, 8) 1) (full2 (8, 8) 5) 1 in
  tolist2 (fst out) = repeat (repeat 0 8%nat) 8%nat /\
  tolist2 (snd out) = repeat (repeat 0 8%nat) 8%nat.
Proof. vm_compute. split; reflexivity. Qed.

(** A constant forcing (1, 0, 0) adds nothing to the vorticity. *)
Example constant_forcing_adds_nothing :
  let out := update_vorticity_from_velocity_forcing_pyst_kernel_3d Z_scalar
               example_vorticity_3d
               (VectorField3 (full3 (4, 4, 4) 1) (full3 (4, 4, 4) 0)
                  (full3 (4, 4, 4) 0)) 2 in
  tolist3 (comp0 out) = tolist3 (comp0 example_vorticity_3d) /\
  tolist3 (comp1 out) = tolist3 (comp1 example_vorticity_3d) /\
  tolist3 (comp2 out) = tolist3 (comp2 example_vorticity_3d).
Proof. vm_compute. repeat split; reflexivity. Qed.

(** The two accumulators on the same data. *)
Example accumulators_on_example_fields :
  let out_f := update_vorticity_from_velocity_forcing_pyst_kernel_3d
                 Z_scalar example_vorticity_3d example_forcing_3d 3 in
  let out_p := update_vorticity_from_penalised_velocity_kernel_3d Z_scalar
                 example_vorticity_3d example_penalised_velocity_3d
                 example_velocity_3d 3 in
  tolist3 (comp0 out_f) = tolist3 (comp0 out_p) /\
  at3 (comp0 out_f) 1 2 1 = -20 /\ at3 (comp0 example_vorticity_3d) 1 2 1 = 4.
Proof. vm_compute. repeat split; reflexivity. Qed.

(** ** Facts about the concrete grids *)

Lemma example_gen :
  gen_penalise_field_boundary_pyst_kernel_2d (PyInt 2) 1 example_x_grid
    example_y_grid None = inr example_closure.
Proof.
  exact (gen_returns_kernel 2 1 example_x_grid example_y_grid None 8 8 8 8
           eq_refl eq_refl ltac:(lia) ltac:(lia) ltac:(lia) ltac:(lia)
           ltac:(lia) ltac:(lra)).
Qed.

Lemma example_gen_width_1 :
  gen_penalise_field_boundary_pyst_kernel_2d (PyInt 1) 1 example_x_grid
    example_y_grid None = inr example_closure_width_1.
Proof.
  exact (gen_returns_kernel 1 1 example_x_grid example_y_grid None 8 8 8 8
           eq_refl eq_refl ltac:(lia) ltac:(lia) ltac:(lia) ltac:(lia)
           ltac:(lia) ltac:(lra)).
Qed.


Lemma example_gen_mismatched :
  gen_penalise_field_boundary_pyst_kernel_2d (PyInt 2) 1 small_x_grid
    example_y_grid None = inr example_closure_mismatched.
Proof.
  exact (gen_returns_kernel 2 1 small_x_grid example_y_grid None 4 4 8 8
           eq_refl eq_refl ltac:(lia) ltac:(lia) ltac:(lia) ltac:(lia)
           ltac:(lia) ltac:(lra)).
Qed.

Lemma example_x_grid_uniform : uniform_x_grid 1 example_x_grid.
Proof. intros i j _ _. simpl. ring. Qed.

Lemma example_y_grid_uniform : uniform_y_grid 1 example_y_grid.
Proof. intros i j _ _. simpl. ring. Qed.

(** ** The claims at concrete inputs *)

Lemma accumulators_agree_witness :
  let out_f := update_vorticity_from_velocity_forcing_pyst_kernel_3d
                 Z_scalar example_vorticity_3d example_forcing_3d 3 in
  let out_p := update_vorticity_from_penalised_velocity_kernel_3d Z_scalar
                 example_vorticity_3d example_penalised_velocity_3d
                 example_velocity_3d 3 in
  shape3 (comp0 example_vorticity_3d) = (4, 4, 4) /\
  forall i j k,
    at3 (comp0 out_f) i j k = at3 (comp0 out_p) i j k /\
    at3 (comp1 out_f) i j k = at3 (comp1 out_p) i j k /\
    at3 (comp2 out_f) i j k = at3 (comp2 out_p) i j k.
Proof.
  split; [reflexivity|].
  exact (proj2 (accumulators_agree Z_scalar example_vorticity_3d
                  example_penalised_velocity_3d example_velocity_3d 3
                  4 4 4 eq_refl eq_refl eq_refl)).
Defined.

Lemma curl_interior_formula_witness :
  let out := outplane_field_curl_pyst_kernel_2d Z_scalar stale_curl_a
               example_field_2d 2 in
  shape2 example_field_2d = (4, 5) /\
  at2 (fst out) 1 1 = 12 /\ at2 (snd out) 1 1 = -28.
Proof.
  split; [reflexivity|].
  exact (curl_interior_formula Z_scalar stale_curl_a example_field_2d 2
           4 5 1 1 eq_refl eq_refl eq_refl
           ltac:(lia) ltac:(lia) ltac:(lia) ltac:(lia)).
Defined.

Lemma forcing_adds_curl_at_interior_witness :
  let out := update_vorticity_from_velocity_forcing_pyst_kernel_3d Z_scalar
               example_vorticity_3d example_forcing_3d 3 in
  shape3 (comp0 example_forcing_3d) = (4, 4, 4) /\
  at3 (comp0 out) 1 2 1 = at3 (comp0 example_vorticity_3d) 1 2 1 + 3 * (-8)
  /\ at3 (comp1 out) 1 2 1 = at3 (comp1 example_vorticity_3d) 1 2 1 + 3 * 0
  /\ at3 (comp2 out) 1 2 1 = at3 (comp2 example_vorticity_3d) 1 2 1 + 3 * (-4).
Proof.
  split; [reflexivity|].
  exact (proj1 (forcing_adds_curl_at_interior Z_scalar example_vorticity_3d
                  example_forcing_3d 3 4 4 4 1 2 1
                  eq_refl eq_refl eq_refl eq_refl eq_refl eq_refl
                  ltac:(lia) ltac:(lia) ltac:(lia)
                  ltac:(lia) ltac:(lia) ltac:(lia))).
Defined.

Lemma curl_zero_on_boundary_ring_witness :
  let out := outplane_field_curl_pyst_kernel_2d Z_scalar stale_curl_a
               example_field_2d 2 in
  at2 (fst stale_curl_a) 0 2 = 7 /\
  at2 (fst out) 0 2 = 0 /\ at2 (snd out) 0 2 = 0.
Proof.
  split; [reflexivity|].
  exact (curl_zero_on_boundary_ring Z_scalar stale_curl_a example_field_2d
           2 4 5 0 2 eq_refl eq_refl eq_refl
           ltac:(lia) ltac:(lia) ltac:(lia) ltac:(lia)
           (or_introl eq_refl)).
Defined.

Lemma curl_independent_of_prior_buffer_witness :
  let out_a := outplane_field_curl_pyst_kernel_2d Z_scalar stale_curl_a
                 example_field_2d 2 in
  let out_b := outplane_field_curl_pyst_kernel_2d Z_scalar stale_curl_b
                 example_field_2d 2 in
  at2 (fst stale_curl_a) 1 1 <> at2 (fst stale_curl_b) 1 1 /\
  forall i j, 0 <= i < 4 -> 0 <= j < 5 ->
    at2 (fst out_a) i j = at2 (fst out_b) i j /\
    at2 (snd out_a) i j = at2 (snd out_b) i j.
Proof.
  split; [discriminate|].
  exact (proj2 (proj2 (curl_independent_of_prior_buffer Z_scalar
                         stale_curl_a stale_curl_b example_field_2d 2 4 5
                         eq_refl eq_refl eq_refl eq_refl eq_refl
                         ltac:(lia) ltac:(lia)))).
Defined.

Lemma accumulators_leave_boundary_ring_witness :
  let out_f := update_vorticity_from_velocity_forcing_pyst_kernel_3d
                 Z_scalar example_vorticity_3d example_forcing_3d 3 in
  let out_p := update_vorticity_from_penalised_velocity_kernel_3d Z_scalar
                 example_vorticity_3d example_penalised_velocity_3d
                 example_velocity_3d 3 in
  (at3 (comp0 out_f) 0 2 1 = 3 /\
   at3 (comp1 out_f) 0 2 1 = -1 /\
   at3 (comp2 out_f) 0 2 1 = 5) /\
  (at3 (comp0 out_p) 0 2 1 = 3 /\
   at3 (comp1 out_p) 0 2 1 = -1 /\
   at3 (comp2 out_p) 0 2 1 = 5).
Proof.
  exact (accumulators_leave_boundary_ring Z_scalar example_vorticity_3d
           example_forcing_3d example_penalised_velocity_3d
           example_velocity_3d 3 4 4 4 0 2 1
           eq_refl eq_refl eq_refl
           ltac:(lia) ltac:(lia) ltac:(lia)
           ltac:(lia) ltac:(lia) ltac:(lia)
           (or_introl eq_refl)).
Defined.

Lemma gen_penalise_checks_width_only_witness :
  gen_penalise_field_boundary_pyst_kernel_2d (PyInt 2) 1 example_x_grid
    example_y_grid None = inr example_closure /\
  gen_penalise_field_boundary_pyst_kernel_2d (PyInt 2) 0 example_x_grid
    example_y_grid None = inl ZeroDivisionError /\
  gen_penalise_field_boundary_pyst_kernel_2d (PyInt 0) 1 example_x_grid
    example_y_grid None = inl AssertionError /\
  gen_penalise_field_boundary_pyst_kernel_2d (PyFloat 2) 1 example_x_grid
    example_y_grid None = inl AssertionError.
Proof.
  split; [|split; [|split]].
  - exact (proj2 (proj2 (gen_penalise_checks_width_only (PyInt 2) 1
                           example_x_grid example_y_grid None 8 8 8 8
                           eq_refl eq_refl
                           ltac:(lia) ltac:(lia) ltac:(lia) ltac:(lia)))
             2 eq_refl ltac:(lia) ltac:(lra)).
  - exact (proj1 (proj2 (gen_penalise_checks_width_only (PyInt 2) 0
                           example_x_grid example_y_grid None 8 8 8 8
                           eq_refl eq_refl
                           ltac:(lia) ltac:(lia) ltac:(lia) ltac:(lia)))
             2 eq_refl ltac:(lia) eq_refl).
  - exact (proj1 (gen_penalise_checks_width_only (PyInt 0) 1
                    example_x_grid example_y_grid None 8 8 8 8
                    eq_refl eq_refl
                    ltac:(lia) ltac:(lia) ltac:(lia) ltac:(lia))
             eq_refl).
  - exact (proj1 (gen_penalise_checks_width_only (PyFloat 2) 1
                    example_x_grid example_y_grid None 8 8 8 8
                    eq_refl eq_refl
                    ltac:(lia) ltac:(lia) ltac:(lia) ltac:(lia))
             (andb_false_r _)).
Defined.

(** C6 as stated fails: the shape of a coordinate field is never compared
    with the grid.  Here the kernel is specialised to an 8 x 8 grid, the
    x-coordinate field is 4 x 4, the y-coordinate field is 8 x 8, and the
    generator returns the kernel. *)
Lemma gen_accepts_mismatched_coordinate_field :
  shape2 small_x_grid = (4, 4) /\
  shape2 example_y_grid = (8, 8) /\
  gen_penalise_field_boundary_pyst_kernel_2d (PyInt 2) 1 small_x_grid
    example_y_grid (Some (8, 8)) =
  inr (PenaliseClosure 2 ((PI / 2) / (IZR 2 * 1))%R small_x_grid
         example_y_grid (IZR 0) (IZR 0) (IZR 3) (IZR 7) (Some (8, 8))).
Proof.
  split; [reflexivity|]. split; [reflexivity|].
  exact (gen_returns_kernel 2 1 small_x_grid example_y_grid (Some (8, 8))
           4 4 8 8 eq_refl eq_refl ltac:(lia) ltac:(lia) ltac:(lia)
           ltac:(lia) ltac:(lia) ltac:(lra)).
Qed.

Lemma penalise_leaves_centre_unchanged_witness :
  let field' := snd (penalise_field_boundary_pyst_kernel_2d example_closure
                       example_field_R) in
  2 * width example_closure < 8 /\
  shape2 field' = (8, 8) /\
  at2 field' 3 4 = at2 example_field_R 3 4.
Proof.
  split; [reflexivity|].
  exact (penalise_leaves_centre_unchanged (PyInt 2) 1 example_x_grid
           example_y_grid None example_closure example_field_R 8 8 3 4
           example_gen eq_refl
           ltac:(simpl; lia) ltac:(simpl; lia)
           ltac:(simpl; lia) ltac:(simpl; lia)).
Defined.

(** C5 as stated fails: with width 2 on the 8 x 8 grid of spacing 1, the
    x-front band is columns 0 and 1, and the factor of its innermost
    column 1 is sin(pi/4), below 1. *)
Lemma taper_below_one_at_innermost_cell :
  gen_penalise_field_boundary_pyst_kernel_2d (PyInt 2) 1 example_x_grid
    example_y_grid None = inr example_closure /\
  x_front_taper example_closure 0 1 = sin (PI / 4) /\
  (x_front_taper example_closure 0 1 < 1)%R.
Proof.
  split; [exact example_gen|].
  assert (E : x_front_taper example_closure 0 1 = taper_profile 2 1).
  { apply (tapers_on_uniform_grid 2 1 example_x_grid example_y_grid None
             example_closure 8 8 example_gen eq_refl eq_refl
             example_x_grid_uniform example_y_grid_uniform);
      try lia; lra. }
  split.
  - rewrite E. unfold taper_profile. f_equal. lra.
  - rewrite E. apply taper_profile_lt_1; lia.
Qed.

Lemma taper_is_sine_below_one_in_band_witness :
  uniform_x_grid 1 example_x_grid /\
  (x_front_taper example_closure 0 0 = 0%R /\
   x_back_taper example_closure 0 7 = 0%R /\
   y_front_taper example_closure 0 0 = 0%R /\
   y_back_taper example_closure 7 0 = 0%R) /\
  (taper_profile 2 (2 - 1) < 1)%R.
Proof.
  split; [exact example_x_grid_uniform|].
  pose proof (taper_is_sine_below_one_in_band 2 1 example_x_grid
                example_y_grid None example_closure 8 8
                example_gen eq_refl eq_refl
                example_x_grid_uniform example_y_grid_uniform
                ltac:(lra) ltac:(lia) ltac:(lia) ltac:(lia)
                0 0 ltac:(lia) ltac:(lia)) as H.
  cbv zeta in H.
  destruct H as [_ [_ [Houter [_ [Hinner _]]]]].
  split; [exact Houter | exact Hinner].
Defined.


(** ** The scenarios at concrete inputs *)

Lemma curl_linear_witness :
  let curl := outplane_field_curl_pyst_kernel_2d Z_scalar in
  let out := curl stale_curl_a
               (lincomb2 Z_scalar 2 example_field_2d 3 example_field_2d_b)
               2 in
  let out1 := curl stale_curl_b example_field_2d 2 in
  let out2 := curl stale_curl_a example_field_2d_b 2 in
  at2 (fst out1) 1 1 = 12 /\
  at2 (fst out) 1 1 = 2 * at2 (fst out1) 1 1 + 3 * at2 (fst out2) 1 1 /\
  at2 (snd out) 1 1 = 2 * at2 (snd out1) 1 1 + 3 * at2 (snd out2) 1 1.
Proof.
  split; [reflexivity|].
  exact (curl_linear Z_scalar stale_curl_a stale_curl_b stale_curl_a
           example_field_2d example_field_2d_b 2 3 2 4 5 1 1
           eq_refl eq_refl eq_refl eq_refl eq_refl eq_refl
           ltac:(lia) ltac:(lia)).
Defined.

(** The round-trip scenario: 8 x 8 grid, constant field 5. *)
Lemma curl_of_constant_is_zero_witness :
  let out := outplane_field_curl_pyst_kernel_2d Z_scalar
               (full2 (8, 8) 1, full2 (8, 8) 1) (full2 (8, 8) 5) 1 in
  at2 (full2 (8, 8) 5 : ndarray2 Z_scalar) 3 4 = 5 /\
  at2 (fst out) 3 4 = 0 /\ at2 (snd out) 3 4 = 0.
Proof.
  split; [reflexivity|].
  exact (curl_of_constant_is_zero Z_scalar
           (full2 (8, 8) 1, full2 (8, 8) 1) 5 1 8 8 3 4
           eq_refl eq_refl ltac:(lia) ltac:(lia)).
Defined.

(** The 16 x 16 x 16 scenario: forcing (1, 0, 0), prefactor 2, zero
    vorticity. *)
Lemma constant_forcing_changes_nothing_witness :
  let w := VectorField3 (full3 (16, 16, 16) 0) (full3 (16, 16, 16) 0)
             (full3 (16, 16, 16) 0) : vector_field3 Z_scalar in
  let f := VectorField3 (full3 (16, 16, 16) 1) (full3 (16, 16, 16) 0)
             (full3 (16, 16, 16) 0) : vector_field3 Z_scalar in
  let out := update_vorticity_from_velocity_forcing_pyst_kernel_3d Z_scalar
               w f 2 in
  shape3 (comp0 w) = (16, 16, 16) /\
  at3 (comp0 out) 7 8 9 = 0 /\
  at3 (comp1 out) 7 8 9 = 0 /\
  at3 (comp2 out) 7 8 9 = 0.
Proof.
  split; [reflexivity|].
  exact (constant_forcing_changes_nothing Z_scalar
           (VectorField3 (full3 (16, 16, 16) 0) (full3 (16, 16, 16) 0)
              (full3 (16, 16, 16) 0))
           1 0 0 2 16 16 16 7 8 9 eq_refl eq_refl eq_refl).
Defined.


Lemma penalise_width_1_raises_witness :
  let out := penalise_field_boundary_pyst_kernel_2d example_closure_width_1
               example_field_R in
  gen_penalise_field_boundary_pyst_kernel_2d (PyInt 1) 1 example_x_grid
    example_y_grid None = inr example_closure_width_1 /\
  fst out = Some ValueError /\
  shape2 (snd out) = (8, 8) /\
  forall i j, at2 (snd out) i j = at2 example_field_R i j.
Proof.
  split; [exact example_gen_width_1|].
  exact (penalise_width_1_raises example_closure_width_1 example_field_R
           8 8 eq_refl eq_refl ltac:(lia) ltac:(lia)).
Defined.

Lemma gen_rejects_invalid_width_witness :
  pynumber_is_int (PyInt (-3)) = true /\
  exists e, gen_penalise_field_boundary_pyst_kernel_2d (PyInt (-3)) 1
              example_x_grid (full2 (0, 0) 0%R) None = inl e.
Proof.
  split; [reflexivity|].
  exact (gen_rejects_invalid_width (PyInt (-3)) 1 example_x_grid
           (full2 (0, 0) 0%R) None eq_refl).
Defined.

(** ** Repeated calls, structure and failures at concrete inputs *)

Lemma forcing_calls_add_prefactors_witness :
  let run := update_vorticity_from_velocity_forcing_pyst_kernel_3d
               Z_scalar in
  let twice := run (run example_vorticity_3d example_forcing_3d 3)
                 example_forcing_3d 4 in
  let once := run example_vorticity_3d example_forcing_3d 7 in
  at3 (comp0 once) 1 2 1 = 4 + 7 * (-8) /\
  at3 (comp0 twice) 1 2 1 = at3 (comp0 once) 1 2 1 /\
  at3 (comp1 twice) 1 2 1 = at3 (comp1 once) 1 2 1 /\
  at3 (comp2 twice) 1 2 1 = at3 (comp2 once) 1 2 1.
Proof.
  split; [vm_compute; reflexivity|].
  exact (forcing_calls_add_prefactors Z_scalar example_vorticity_3d 4 4 4
           eq_refl eq_refl eq_refl example_forcing_3d 3 4 1 2 1).
Defined.

Lemma forcing_undone_by_opposite_prefactor_witness :
  let run := update_vorticity_from_velocity_forcing_pyst_kernel_3d
               Z_scalar in
  let there := run example_vorticity_3d example_forcing_3d 3 in
  let back := run there example_forcing_3d (-3) in
  at3 (comp0 there) 1 2 1 = -20 /\
  at3 (comp0 back) 1 2 1 = 4 /\
  at3 (comp1 back) 1 2 1 = 1 /\
  at3 (comp2 back) 1 2 1 = 5.
Proof.
  split; [vm_compute; reflexivity|].
  exact (forcing_undone_by_opposite_prefactor Z_scalar example_vorticity_3d
           4 4 4 eq_refl eq_refl eq_refl example_forcing_3d 3 1 2 1).
Defined.

Lemma forcing_calls_add_fields_witness :
  let run := update_vorticity_from_velocity_forcing_pyst_kernel_3d
               Z_scalar in
  let f := example_penalised_velocity_3d in
  let g := example_velocity_3d in
  let sum := run example_vorticity_3d (vector_field3_add Z_scalar f g) 3 in
  shape3 (comp0 example_vorticity_3d) = (4, 4, 4) /\
  at3 (comp0 (run (run example_vorticity_3d f 3) g 3)) 2 1 2
  = at3 (comp0 sum) 2 1 2 /\
  at3 (comp0 (run (run example_vorticity_3d g 3) f 3)) 2 1 2
  = at3 (comp0 sum) 2 1 2.
Proof.
  split; [reflexivity|].
  pose proof (forcing_calls_add_fields Z_scalar example_vorticity_3d 4 4 4
                eq_refl eq_refl eq_refl example_penalised_velocity_3d
                example_velocity_3d 3 2 1 2) as H.
  cbv zeta in H. destruct H as [[H1 _] [H2 _]]. split; assumption.
Defined.

Lemma penalised_with_equal_fields_changes_nothing_witness :
  let out := update_vorticity_from_penalised_velocity_kernel_3d Z_scalar
               example_vorticity_3d example_velocity_3d example_velocity_3d
               3 in
  at3 (comp0 out) 1 2 1 = 4 /\
  at3 (comp1 out) 1 2 1 = 1 /\
  at3 (comp2 out) 1 2 1 = 5.
Proof.
  exact (penalised_with_equal_fields_changes_nothing Z_scalar
           example_vorticity_3d 4 4 4 eq_refl eq_refl eq_refl
           example_velocity_3d 3 1 2 1).
Defined.

Lemma accumulators_keep_divergence_witness :
  let w := example_vorticity_3d_wide in
  let out_f := update_vorticity_from_velocity_forcing_pyst_kernel_3d
                 Z_scalar w example_penalised_velocity_3d_wide 3 in
  let out_p := update_vorticity_from_penalised_velocity_kernel_3d Z_scalar
                 w example_penalised_velocity_3d_wide
                 example_velocity_3d_wide 3 in
  (2 <= 2 <= 5 - 3 /\ at3 (comp0 out_f) 2 2 3 <> at3 (comp0 w) 2 2 3) /\
  divergence3 Z_scalar out_f 2 2 2 = divergence3 Z_scalar w 2 2 2 /\
  divergence3 Z_scalar out_p 2 2 2 = divergence3 Z_scalar w 2 2 2.
Proof.
  split; [split; [lia | vm_compute; discriminate]|].
  exact (accumulators_keep_divergence Z_scalar example_vorticity_3d_wide
           5 5 5 eq_refl eq_refl eq_refl example_penalised_velocity_3d_wide
           example_penalised_velocity_3d_wide example_velocity_3d_wide 3
           2 2 2 ltac:(lia) ltac:(lia) ltac:(lia)).
Defined.

Lemma penalised_depends_on_difference_only_witness :
  let run := update_vorticity_from_penalised_velocity_kernel_3d Z_scalar in
  let w := example_vorticity_3d in
  let pv := example_penalised_velocity_3d in
  let v := example_velocity_3d in
  let d := example_forcing_3d in
  let shifted := run w (vector_field3_add Z_scalar pv d)
                   (vector_field3_add Z_scalar v d) 3 in
  shape3 (comp0 w) = (4, 4, 4) /\
  at3 (comp0 shifted) 1 2 1 = at3 (comp0 (run w pv v 3)) 1 2 1 /\
  at3 (comp1 shifted) 1 2 1 = at3 (comp1 (run w pv v 3)) 1 2 1 /\
  at3 (comp2 shifted) 1 2 1 = at3 (comp2 (run w pv v 3)) 1 2 1.
Proof.
  split; [reflexivity|].
  exact (penalised_depends_on_difference_only Z_scalar example_vorticity_3d
           example_penalised_velocity_3d example_velocity_3d
           example_forcing_3d 3 4 4 4 1 2 1 eq_refl eq_refl eq_refl).
Defined.


Lemma curl_ignores_constant_shift_witness :
  let run := outplane_field_curl_pyst_kernel_2d Z_scalar stale_curl_a in
  0 <= 2 < 4 /\
  at2 (fst (run (add_const2 Z_scalar example_field_2d 10) 2)) 2 3
  = at2 (fst (run example_field_2d 2)) 2 3 /\
  at2 (snd (run (add_const2 Z_scalar example_field_2d 10) 2)) 2 3
  = at2 (snd (run example_field_2d 2)) 2 3.
Proof.
  split; [lia|].
  exact (curl_ignores_constant_shift Z_scalar stale_curl_a 4 5
           eq_refl eq_refl example_field_2d 10 2 2 3
           ltac:(lia) ltac:(lia)).
Defined.



Lemma penalise_linear_witness :
  let run f := snd (penalise_field_boundary_pyst_kernel_2d example_closure
                      f) in
  shape2 example_field_R_b = (8, 8) /\
  at2 (run (lincomb2 R_scalar 2%R example_field_R (-3)%R
              example_field_R_b)) 1 6 =
  (2 * at2 (run example_field_R) 1 6
   + (-3) * at2 (run example_field_R_b) 1 6)%R.
Proof.
  split; [reflexivity|].
  exact (penalise_linear example_closure example_field_R 8 8 eq_refl
           ltac:(simpl; lia) ltac:(simpl; lia) ltac:(simpl; lia)
           example_field_R_b 2%R (-3)%R 1 6 eq_refl ltac:(lia) ltac:(lia)).
Defined.

Lemma example_field_R_bounded (a b : Z) :
  0 <= a < 8 -> 0 <= b < 8 -> (Rabs (at2 example_field_R a b) <= 64)%R.
Proof.
  intros Ha Hb. simpl. rewrite Rabs_Zabs. apply IZR_le. lia.
Qed.

Lemma penalise_never_amplifies_witness :
  (Rabs (at2 example_field_R 7 7) <= 64)%R /\
  (Rabs (at2 (snd (penalise_field_boundary_pyst_kernel_2d example_closure
                     example_field_R)) 1 6) <= 64)%R.
Proof.
  split; [apply example_field_R_bounded; lia|].
  exact (penalise_never_amplifies 2 1 example_x_grid example_y_grid None
           example_closure example_field_R 8 8 example_gen eq_refl eq_refl
           eq_refl example_x_grid_uniform example_y_grid_uniform
           ltac:(lra) ltac:(lia) ltac:(lia) ltac:(lia) 64%R 1 6
           example_field_R_bounded ltac:(lia) ltac:(lia)).
Defined.


Lemma penalise_width_beyond_columns_raises_witness :
  1 <= 1 < width example_closure /\
  penalise_field_boundary_pyst_kernel_2d example_closure
    example_field_one_column
  = (Some ValueError, example_field_one_column).
Proof.
  split; [simpl; lia|].
  exact (penalise_width_beyond_columns_raises example_closure
           example_field_one_column 3 1 eq_refl ltac:(simpl; lia)).
Defined.


Lemma gen_raises_index_error_on_empty_coordinates_witness :
  shape2 (full2 (0, 0) 0%R) = (0, 0) /\
  gen_penalise_field_boundary_pyst_kernel_2d (PyInt 2) 1
    (full2 (0, 0) 0%R) example_y_grid None = inl IndexError.
Proof.
  split; [reflexivity|].
  exact (gen_raises_index_error_on_empty_coordinates (PyInt 2) 1
           (full2 (0, 0) 0%R) example_y_grid None 0 0 8 8 eq_refl eq_refl
           ltac:(lia)).
Defined.

Lemma penalise_rejects_mismatched_x_coordinates_witness :
  let out := penalise_field_boundary_pyst_kernel_2d
               example_closure_mismatched example_field_R in
  (gen_penalise_field_boundary_pyst_kernel_2d (PyInt 2) 1 small_x_grid
     example_y_grid None = inr example_closure_mismatched /\
   shape2 (x_grid_field example_closure_mismatched) = (4, 4)) /\
  (exists e, fst out = Some e) /\
  shape2 (snd out) = (8, 8) /\
  forall i j, 0 <= i < 8 -> 0 <= j < 8 ->
    at2 (snd out) i j =
    flat_along_x (width example_closure_mismatched) 8 (at2 example_field_R)
      i j.
Proof.
  split; [split; [exact example_gen_mismatched | reflexivity]|].
  exact (penalise_rejects_mismatched_x_coordinates
           example_closure_mismatched example_field_R 8 8 eq_refl
           ltac:(simpl; discriminate)
           ltac:(simpl; lia) ltac:(simpl; lia) ltac:(simpl; lia)).
Defined.
